(** * CPCovid-Synth: the SNR metrics and the axis heuristics

    A shallow embedding of [include/comparison_tools/SNR.py] and of the two
    adaptive helpers of [display/formattingFigures.py], with the properties
    the specification states about them; then of the colour table and of the
    four functions of [display/display_figures.py] that call them, with
    properties read off the code.

    Numbers.  The Python code works on NumPy [float64] values.  They
    are embedded as the reals extended with the three IEEE-754 special values
    (+inf, -inf, nan): finite results are computed exactly (rounding, overflow
    and the sign of zero are idealised away, a zero divisor counts as +0,
    which is what the code divides by: sums of absolute values, lengths and
    powers of ten), while division by zero, logarithms of non-positive
    numbers and the propagation of inf and nan follow IEEE-754, since NumPy
    raises no exception there.

    What is proved on these numbers is therefore of three kinds: that the
    value the code computes is the value of a formula built from the same
    operations; which exceptions are raised and when a result is inf or nan
    whatever the rounding; and finite values at given inputs, which are the
    exact ones, binary64 agreeing with them up to the rounding of the last
    digits.  Where binary64 departs from the reals by more than that, nothing
    is stated: the quotient [np.log(m) / np.log(10)] of [adaptiveYLimit], for
    one, is 2.9999999999999996 in binary64 at [m = 1000] and just above it,
    where its floor is 2 and not 3. *)

From Stdlib Require Import String.
From Stdlib Require Import Reals Lra Lia ZArith List Bool.
Import ListNotations.

(** ** Python exceptions and the error monad *)

Inductive exn : Type :=
| AssertionError
| IndexError
| ZeroDivisionError
| ValueError.

Inductive result (A : Type) : Type :=
| Ok (a : A)
| Raise (e : exn).
Arguments Ok {A} a.
Arguments Raise {A} e.

Definition bind {A B : Type} (c : result A) (k : A -> result B) : result B :=
  match c with
  | Ok a => k a
  | Raise e => Raise e
  end.

Notation "x <- c ;; k" := (bind c (fun x => k))
  (at level 61, c at next level, right associativity).
Notation "c ;;; k" := (bind c (fun _ => k))
  (at level 61, right associativity).

(** [assert b] *)
Definition py_assert (b : bool) : result unit :=
  if b then Ok tt else Raise AssertionError.

(** [xs[i]] on a one-dimensional array, for [0 <= i] *)
Definition index {A : Type} (xs : list A) (i : nat) : result A :=
  match nth_error xs i with
  | Some x => Ok x
  | None => Raise IndexError
  end.

(** [for x in xs: out.append(f x)], stopping at the first exception *)
Fixpoint mapM {A B : Type} (f : A -> result B) (xs : list A) : result (list B) :=
  match xs with
  | [] => Ok []
  | x :: xs' => y <- f x ;; ys <- mapM f xs' ;; Ok (y :: ys)
  end.

(** ** NumPy floats and arrays *)

Module NumPy.

Local Open Scope R_scope.

Inductive float64 : Type :=
| Fin (r : R)
| PInf
| NInf
| NaN.

Definition Rltb (a b : R) : bool := if Rlt_dec a b then true else false.
Definition Reqb (a b : R) : bool := if Req_dec_T a b then true else false.

(** the infinity with the sign of [r]; [0 * inf] and [0 / 0] are nan *)
Definition inf_of_sign (r : R) : float64 :=
  if Rltb 0 r then PInf else if Rltb r 0 then NInf else NaN.

Definition of_int (z : Z) : float64 := Fin (IZR z).
Definition of_nat (n : nat) : float64 := of_int (Z.of_nat n).

Definition fneg (x : float64) : float64 :=
  match x with
  | Fin r => Fin (- r)
  | PInf => NInf
  | NInf => PInf
  | NaN => NaN
  end.

Definition fabs (x : float64) : float64 :=
  match x with
  | Fin r => Fin (Rabs r)
  | PInf | NInf => PInf
  | NaN => NaN
  end.

Definition fadd (x y : float64) : float64 :=
  match x, y with
  | NaN, _ | _, NaN => NaN
  | Fin a, Fin b => Fin (a + b)
  | PInf, NInf | NInf, PInf => NaN
  | PInf, _ | _, PInf => PInf
  | NInf, _ | _, NInf => NInf
  end.

Definition fsub (x y : float64) : float64 := fadd x (fneg y).

Definition fmul (x y : float64) : float64 :=
  match x, y with
  | NaN, _ | _, NaN => NaN
  | Fin a, Fin b => Fin (a * b)
  | Fin a, PInf | PInf, Fin a => inf_of_sign a
  | Fin a, NInf | NInf, Fin a => inf_of_sign (- a)
  | PInf, PInf | NInf, NInf => PInf
  | PInf, NInf | NInf, PInf => NInf
  end.

Definition fdiv (x y : float64) : float64 :=
  match x, y with
  | NaN, _ | _, NaN => NaN
  | Fin a, Fin b => if Reqb b 0 then inf_of_sign a else Fin (a / b)
  | Fin _, (PInf | NInf) => Fin 0
  | PInf, Fin b => if Rltb b 0 then NInf else PInf
  | NInf, Fin b => if Rltb b 0 then PInf else NInf
  | (PInf | NInf), (PInf | NInf) => NaN
  end.

(** [x > y]; every comparison with nan is [False] *)
Definition fgt (x y : float64) : bool :=
  match x, y with
  | NaN, _ | _, NaN => false
  | Fin a, Fin b => Rltb b a
  | PInf, (Fin _ | NInf) => true
  | Fin _, NInf => true
  | _, _ => false
  end.

(** [x ** n] for a Python [int] exponent [n >= 0] *)
Fixpoint fpow (x : float64) (n : nat) : float64 :=
  match n with
  | O => Fin 1
  | S n' => fmul x (fpow x n')
  end.

(** [10 ** x] for a float exponent *)
Definition pow10 (x : float64) : float64 :=
  match x with
  | Fin r => Fin (Rpower 10 r)
  | PInf => PInf
  | NInf => Fin 0
  | NaN => NaN
  end.

(** [np.log] *)
Definition flog (x : float64) : float64 :=
  match x with
  | Fin r => if Rltb 0 r then Fin (ln r) else if Reqb r 0 then NInf else NaN
  | PInf => PInf
  | NInf | NaN => NaN
  end.

(** [np.log10] *)
Definition flog10 (x : float64) : float64 :=
  match x with
  | Fin r => if Rltb 0 r then Fin (ln r / ln 10) else if Reqb r 0 then NInf else NaN
  | PInf => PInf
  | NInf | NaN => NaN
  end.

(** [np.sqrt] *)
Definition fsqrt (x : float64) : float64 :=
  match x with
  | Fin r => if Rltb r 0 then NaN else Fin (sqrt r)
  | PInf => PInf
  | NInf | NaN => NaN
  end.

Definition Rfloor (r : R) : Z := Int_part r.
Definition Rceil (r : R) : Z := (- Int_part (- r))%Z.

(** [np.floor], [np.ceil] *)
Definition ffloor (x : float64) : float64 :=
  match x with
  | Fin r => of_int (Rfloor r)
  | _ => x
  end.

Definition fceil (x : float64) : float64 :=
  match x with
  | Fin r => of_int (Rceil r)
  | _ => x
  end.

(** [max] of two floats, nan winning as in [np.maximum] *)
Definition fmax (x y : float64) : float64 :=
  match x, y with
  | NaN, _ | _, NaN => NaN
  | _, _ => if fgt y x then y else x
  end.

(** *** One-dimensional arrays *)

Definition ndarray := list float64.

(** elementwise binary operation on arrays of one shape *)
Fixpoint zip_with (f : float64 -> float64 -> float64) (xs ys : ndarray) : ndarray :=
  match xs, ys with
  | x :: xs', y :: ys' => f x y :: zip_with f xs' ys'
  | _, _ => []
  end.

Definition np_sub (xs ys : ndarray) : ndarray := zip_with fsub xs ys.
Definition np_abs (xs : ndarray) : ndarray := map fabs xs.
Definition np_pow (xs : ndarray) (n : nat) : ndarray := map (fun x => fpow x n) xs.

(** [np.sum]; the empty sum is [0.0] *)
Definition np_sum (xs : ndarray) : float64 := fold_left fadd xs (Fin 0).

(** [np.max]; it raises [ValueError] on an empty array *)
Definition np_max (xs : ndarray) : result float64 :=
  match xs with
  | [] => Raise ValueError
  | x :: xs' => Ok (fold_left fmax xs' x)
  end.

(** [xs[1:]] *)
Definition from1 (xs : ndarray) : ndarray := tl xs.

(** [np.std(xs, ddof=ddof)]: the mean is [sum / n], the deviations are
    squared by multiplication, their sum is divided by [max (n - ddof) 0] *)
Definition np_std_ddof (ddof : nat) (xs : ndarray) : float64 :=
  let n := length xs in
  let arrmean := fdiv (np_sum xs) (of_nat n) in
  let x := map (fun a => fsub a arrmean) xs in
  let x2 := map (fun d => fmul d d) x in
  fsqrt (fdiv (np_sum x2) (of_nat (n - ddof))).

(** [np.std(xs)], whose default is [ddof = 0] *)
Definition np_std (xs : ndarray) : float64 := np_std_ddof 0 xs.

(** *** Two-dimensional arrays: a shape and the rows *)

Record ndarray2 : Type := mk_ndarray2 {
  shape0 : nat;
  shape1 : nat;
  rows : list ndarray
}.

Definition wf2 (a : ndarray2) : Prop :=
  length (rows a) = shape0 a /\ Forall (fun r => length r = shape1 a) (rows a).

(** [np.shape(a)] *)
Definition np_shape (a : ndarray2) : nat * nat := (shape0 a, shape1 a).

(** a series of finite values, as an array *)
Definition series (rs : list R) : ndarray := map Fin rs.

End NumPy.

(** ** include/comparison_tools/SNR.py *)

Module SNR.

Import NumPy.
Local Open Scope R_scope.

Definition SignaltoNoiseRatio (groundTruth estimation : ndarray) : result float64 :=
  let normOrder := 2%nat in
  py_assert (Nat.eqb (length groundTruth) (length estimation)) ;;;
  let errorMean :=
    fdiv (np_sum (np_abs (np_sub (from1 estimation) (from1 groundTruth))))
         (of_int (Z.of_nat (length groundTruth) - 1)) in
  estimation0 <- index estimation 0 ;;
  groundTruth0 <- index groundTruth 0 ;;
  let SquaredError :=
    if fgt (fdiv (fsub estimation0 groundTruth0) errorMean) (Fin 100000) then
      np_sum (np_pow (np_abs (np_sub (from1 estimation) (from1 groundTruth))) normOrder)
    else
      np_sum (np_pow (np_abs (np_sub estimation groundTruth)) normOrder) in
  Ok (fmul (Fin 10)
        (flog10 (fdiv (np_sum (np_pow (np_abs groundTruth) normOrder)) SquaredError))).

(** [1 / n] for a Python [int] [n >= 0]: true division, which raises on 0 *)
Definition py_inv (n : nat) : result float64 :=
  if Nat.eqb n 0 then Raise ZeroDivisionError else Ok (Fin (1 / IZR (Z.of_nat n))).

(** [estimations[draw]] *)
Definition row (a : ndarray2) (d : nat) : result ndarray := index (rows a) d.

Definition SignaltoNoiseRatioMC (groundTruth : ndarray) (estimations : ndarray2)
    : result (float64 * float64) :=
  let '(nbDraws, days) := np_shape estimations in
  py_assert (Nat.eqb days (length groundTruth)) ;;;
  SNREstim <- mapM (fun draw => est <- row estimations draw ;;
                                SignaltoNoiseRatio groundTruth est)
                   (seq 0 nbDraws) ;;
  inv <- py_inv nbDraws ;;
  Ok (fmul inv (np_sum SNREstim),
      fmul (fdiv (Fin (196 / 100)) (fsqrt (of_nat nbDraws))) (np_std SNREstim)).

Definition SNRByDep_indic (groundTruth estimation : ndarray2) : result ndarray :=
  let '(nbDeps, days) := np_shape estimation in
  py_assert (Nat.eqb nbDeps (shape0 groundTruth)) ;;;
  py_assert (Nat.eqb days (shape1 groundTruth)) ;;;
  mapM (fun d => g <- row groundTruth d ;;
                 e <- row estimation d ;;
                 SignaltoNoiseRatio g e)
       (seq 0 nbDeps).

Definition SNRMean_indic (groundTruth estimation : ndarray2) : result float64 :=
  let '(nbDeps, days) := np_shape estimation in
  py_assert (Nat.eqb nbDeps (shape0 groundTruth)) ;;;
  py_assert (Nat.eqb days (shape1 groundTruth)) ;;;
  indicatorsByDep <- SNRByDep_indic groundTruth estimation ;;
  py_assert (Nat.eqb (length indicatorsByDep) nbDeps) ;;;
  inv <- py_inv nbDeps ;;
  Ok (fmul inv (np_sum indicatorsByDep)).

End SNR.

(** ** display/formattingFigures.py *)

Module FormattingFigures.

Import NumPy.

(** *** [matplotlib.dates]

    A date number counts days from 1970-01-01 (the default epoch); the dates
    handled here are whole days.  [num2date] is the proleptic Gregorian
    calendar date of a day number.  The library's [num2date] answers with a
    [datetime], which exists for the years 1 to 9999 only: on the day numbers
    of [datetime_range] it is the function below, outside them it raises
    [ValueError]. *)

Record datetime : Type := mk_datetime { year : Z; month : Z; day : Z }.

Local Open Scope Z_scope.

Definition num2date (n : Z) : datetime :=
  let z := n + 719468 in
  let era := z / 146097 in
  let doe := z - era * 146097 in
  let yoe := (doe - doe / 1460 + doe / 36524 - doe / 146096) / 365 in
  let doy := doe - (365 * yoe + yoe / 4 - yoe / 100) in
  let mp := (5 * doy + 2) / 153 in
  let d := doy - (153 * mp + 2) / 5 + 1 in
  let m := if mp <? 10 then mp + 3 else mp - 9 in
  let y := yoe + era * 400 + (if m <=? 2 then 1 else 0) in
  mk_datetime y m d.

(** the day numbers of 0001-01-01 and of 9999-12-31, and those between *)
Definition datetime_range (n : Z) : Prop := -719162 <= n <= 2932896.

Inductive Locator : Type :=
| DayLocator (interval : Z)
| WeekdayLocator (interval : Z) (byweekday : Z)
| MonthLocator (interval : Z) (bymonthday : Z)
| YearLocator.

(** [mdates.DayLocator(interval=...)]: the constructor raises [ValueError]
    unless the interval is at least 1.  The other three locators are built
    below with arguments their constructors accept (an interval of at least
    1, a weekday from 1 to 4, a day of month from 1 to 28). *)
Definition new_DayLocator (interval : Z) : result Locator :=
  if interval <? 1 then Raise ValueError else Ok (DayLocator interval).

Inductive Formatter : Type :=
| DateFormatter (fmt : string).

(** [int(np.round(a / b))] for Python ints [a >= 0], [b > 0]: the quotient
    rounded to the nearest integer, a tie going to the even one *)
Definition int_round_div (a b : Z) : Z :=
  let q := a / b in
  let r := a mod b in
  if 2 * r <? b then q
  else if b <? 2 * r then q + 1
  else if Z.even q then q else q + 1.

(** [int(np.ceil(a / b))] for Python ints [a], [b > 0] *)
Definition int_ceil_div (a b : Z) : Z := - ((- a) / b).

Definition adaptiveDaysLocator (formattedDates : list Z) : result (Locator * Formatter) :=
  let days := Z.of_nat (length formattedDates) in
  d0 <- index formattedDates 0 ;;
  let firstDay := day (num2date d0) in
  let firstDay := if existsb (Z.eqb firstDay) [29; 30; 31] then 1 else firstDay in
  if days <? 35 then
    let interval := int_round_div days 5 in
    locator <- new_DayLocator interval ;;
    Ok (locator, DateFormatter "%d~%b~%Y")
  else if (34 <? days) && (days <? 111) then
    let interval := int_round_div days 35 in
    let firstWeek := int_ceil_div firstDay 7 in
    Ok (WeekdayLocator interval firstWeek, DateFormatter "%d~%b~%Y")
  else if (110 <? days) && (days <? 550) then
    let interval := int_round_div days 140 in
    Ok (MonthLocator interval firstDay, DateFormatter "%b~%Y")
  else
    Ok (YearLocator, DateFormatter "%Y").

Definition adaptiveYLimit (Ydata : ndarray) : result float64 :=
  m <- np_max Ydata ;;
  let floorPowerTen := ffloor (fdiv (flog m) (flog (of_int 10))) in
  Ok (fmul (fceil (fdiv m (pow10 floorPowerTen))) (pow10 floorPowerTen)).

(** [n] consecutive days from day number [start] *)
Definition date_range (start : Z) (n : nat) : list Z :=
  map (fun i => start + Z.of_nat i) (seq 0 n).

End FormattingFigures.

(** ** The specification's formulas

    Written from the specification's sentences, index by index, to be
    compared with the functions above. *)

Module Spec.

Import NumPy FormattingFigures.
Local Open Scope R_scope.

Definition Rsum (rs : list R) : R := fold_right Rplus 0 rs.

(** the sum of [f i] over the indices [lo <= i < lo + n] *)
Definition sum_range (f : nat -> R) (lo n : nat) : R := Rsum (map f (seq lo n)).

Section SNRFormula.

Variables groundTruth estimation : list R.

(** the absolute difference at index [i] *)
Definition absdiff (i : nat) : R := Rabs (nth i estimation 0 - nth i groundTruth 0).

(** the signed difference at index [i] *)
Definition diff (i : nat) : R := nth i estimation 0 - nth i groundTruth 0.

(** the mean absolute difference over the indices [1, N) *)
Definition errorMean : float64 :=
  fdiv (Fin (sum_range absdiff 1 (length groundTruth - 1))) (of_int (Z.of_nat (length groundTruth) - 1)).

(** the squared error: over [1, N) when the quantity [lead] divided by
    [errorMean] exceeds 100000, over [0, N) otherwise *)
Definition squaredError (lead : R) : R :=
  if fgt (fdiv (Fin lead) errorMean) (Fin 100000)
  then sum_range (fun i => absdiff i ^ 2) 1 (length groundTruth - 1)
  else sum_range (fun i => absdiff i ^ 2) 0 (length groundTruth).

(** [10 * log10 (sum |groundTruth[i]|^2 / squaredError)] *)
Definition snr_formula (lead : R) : float64 :=
  fmul (Fin 10)
    (flog10 (fdiv (Fin (sum_range (fun i => Rabs (nth i groundTruth 0) ^ 2) 0 (length groundTruth)))
                  (Fin (squaredError lead)))).

(** the claim's outlier test is on the absolute difference at index 0 *)
Definition snr_claimed : float64 := snr_formula (absdiff 0).

(** the code's outlier test is on the signed difference at index 0 *)
Definition snr_signed : float64 := snr_formula (diff 0).

End SNRFormula.

(** the arithmetic mean of [M] values: their sum divided by [M] *)
Definition arith_mean (xs : ndarray) : float64 := fdiv (np_sum xs) (of_nat (length xs)).

(** the population standard deviation: the square root of the mean (divisor
    [M]) of the squared deviations from the arithmetic mean *)
Definition pop_std (xs : ndarray) : float64 :=
  fsqrt (fdiv (np_sum (map (fun x => fpow (fsub x (arith_mean xs)) 2) xs))
              (of_nat (length xs))).

(** the 95 percent half-width [1.96 / sqrt M * std] *)
Definition half_width (xs : ndarray) : float64 :=
  fmul (fdiv (Fin (196 / 100)) (fsqrt (of_nat (length xs)))) (pop_std xs).

Local Open Scope Z_scope.

(** the first date's day of month, 29 to 31 counting as 1 *)
Definition normalised (dom : Z) : Z := if (29 <=? dom) && (dom <=? 31) then 1 else dom.

(** The four tick modes of the table, for a sequence of [days] dates whose
    first date has day of month [dom]; [anchor dom] is the day the monthly
    ticks are anchored at.  The format strings render as DD Mon YYYY,
    Mon YYYY and YYYY (the tilde is LaTeX's unbreakable space). *)
Inductive tick_mode (anchor : Z -> Z) (days dom : Z) : Locator * Formatter -> Prop :=
| mode_daily :
    days < 35 ->
    tick_mode anchor days dom
      (DayLocator (int_round_div days 5), DateFormatter "%d~%b~%Y")
| mode_weekly :
    35 <= days <= 110 ->
    tick_mode anchor days dom
      (WeekdayLocator (int_round_div days 35) (int_ceil_div (normalised dom) 7),
       DateFormatter "%d~%b~%Y")
| mode_monthly :
    111 <= days <= 549 ->
    tick_mode anchor days dom
      (MonthLocator (int_round_div days 140) (anchor dom), DateFormatter "%b~%Y")
| mode_yearly :
    550 <= days ->
    tick_mode anchor days dom (YearLocator, DateFormatter "%Y").

(** the claim anchors the monthly ticks at the first date's day of month *)
Definition tick_mode_claimed := tick_mode (fun dom => dom).

(** the code anchors them at the normalised day *)
Definition tick_mode_normalised := tick_mode normalised.

End Spec.

(** ** Arrays built from others *)

Module Quantities.

Import NumPy.

(** [np.vstack((a, b))] of two 2D arrays with rows of one length *)
Definition vstack (a b : ndarray2) : ndarray2 :=
  mk_ndarray2 (shape0 a + shape0 b) (shape1 a) (rows a ++ rows b).

(** the 2D array of [M] rows all equal to [xs] *)
Definition tile (M : nat) (xs : ndarray) : ndarray2 :=
  mk_ndarray2 M (length xs) (repeat xs M).

End Quantities.

(** ** display/display_figures.py

    The four display functions drive matplotlib.  A run is embedded as the
    list of the matplotlib calls made, in order, together with the value
    returned or the exception raised by the repository's code, by Python or
    by NumPy.  A matplotlib call is recorded with its arguments; of the ways
    such a call can itself fail, three are modelled: [plot] refuses an [x]
    and a [y] of different lengths, [set_ylim] a limit that is nan or
    infinite, and [DayLocator] an interval below 1, each with [ValueError].
    The arguments that are dynamically typed in Python are given the types of
    the docstrings. *)

Module DisplayFigures.

Import NumPy FormattingFigures.
Local Open Scope string_scope.
Local Open Scope list_scope.

(** *** The colour table of formattingFigures.py *)

Inductive color : Type :=
| ColorName (name : string)
| ColorTuple (components : list R).

Definition colors : list (string * color) :=
  [ ("MLE", ColorTuple [5 / 10; 5 / 10; 5 / 10; 6 / 10]%R);
    ("Gamma", ColorTuple [0; 128 / 255; 0]%R);
    ("U", ColorTuple [0; 0; 1]%R);
    ("U-O", ColorTuple [1; 0; 0]%R);
    ("synthData", ColorTuple [1; 65 / 100; 0]%R);
    ("denoisedU", ColorTuple [70 / 255; 130 / 255; 180 / 255]%R);
    ("denoisedU-O", ColorTuple [139 / 255; 0; 0]%R) ].

(** *** Runs *)

Inductive error : Type :=
| Py (e : exn)
| KeyError
| TypeError.

Inductive axis : Type :=
| Ax (i : nat).

Inductive style : Type :=
| WithColor (c : color)
| DefaultStyle
| Markers
| Alpha075.

Inductive call : Type :=
| Call (callee args : string)
| AxCall (ax : axis) (method args : string)
| Plot (ax : axis) (x : list Z) (y : ndarray) (label : string) (st : style)
| AxSet (ax : axis) (title : option string) (ylabel : string)
| SetMajorLocator (ax : axis) (locator : Locator)
| SetMajorFormatter (ax : axis) (formatter : Formatter)
| SetYlim (ax : axis) (bottom top : float64)
| SetYticks (ax : axis) (ticks : ndarray)
| Suptitle (title : string)
| Savefig (savePath : option string).

Inductive outcome (A : Type) : Type :=
| Return (a : A)
| Fail (e : error).
Arguments Return {A} a.
Arguments Fail {A} e.

Definition run (A : Type) : Type := list call * outcome A.

Definition ret {A : Type} (a : A) : run A := ([], Return a).
Definition fail {A : Type} (e : error) : run A := ([], Fail e).
Definition emit (c : call) : run unit := ([c], Return tt).

Definition andThen {A B : Type} (m : run A) (k : A -> run B) : run B :=
  match m with
  | (t, Return a) => let (t', r) := k a in (t ++ t', r)
  | (t, Fail e) => (t, Fail e)
  end.

Notation "x <~ c ;; k" := (andThen c (fun x => k))
  (at level 61, c at next level, right associativity).
Notation "c >> k" := (andThen c (fun _ => k))
  (at level 61, right associativity).

(** a computation of the pure part, run inside a display function *)
Definition lift {A : Type} (r : result A) : run A :=
  match r with
  | Ok a => ret a
  | Raise e => fail (Py e)
  end.

Definition when (b : bool) (m : run unit) : run unit := if b then m else ret tt.

(** [for x in xs: body(x)] *)
Fixpoint for_each {A : Type} (xs : list A) (body : A -> run unit) : run unit :=
  match xs with
  | [] => ret tt
  | x :: xs' => body x >> for_each xs' body
  end.

(** [d[k]] on a dict, [None[k]] being a [TypeError] *)
Fixpoint lookup {V : Type} (k : string) (d : list (string * V)) : option V :=
  match d with
  | [] => None
  | (k', v) :: d' => if String.eqb k k' then Some v else lookup k d'
  end.

Definition getitem {V : Type} (d : list (string * V)) (k : string) : run V :=
  match lookup k d with
  | Some v => ret v
  | None => fail KeyError
  end.

Definition getitem_opt {V : Type} (d : option (list (string * V))) (k : string) : run V :=
  match d with
  | Some d' => getitem d' k
  | None => fail TypeError
  end.

(** [a[d]] on the rows of a 2D array *)
Definition getrow (a : ndarray2) (d : nat) : run ndarray := lift (index (rows a) d).

(** [xs - ys] on one-dimensional arrays, with NumPy's broadcasting *)
Definition np_subtract (xs ys : ndarray) : result ndarray :=
  if Nat.eqb (length xs) (length ys) then Ok (zip_with fsub xs ys)
  else match xs, ys with
       | _, [y] => Ok (map (fun x => fsub x y) xs)
       | [x], _ => Ok (map (fun y => fsub x y) ys)
       | _, _ => Raise ValueError
       end.

(** [ax.plot(x, y, label=..., ...)] *)
Definition plot (ax : axis) (x : list Z) (y : ndarray) (label : string) (st : style)
    : run unit :=
  if Nat.eqb (length x) (length y) then emit (Plot ax x y label st)
  else fail (Py ValueError).

(** [ax.set_ylim(bottom, top)]: matplotlib refuses a limit that is nan or
    infinite with [ValueError] *)
Definition is_finite (x : float64) : bool :=
  match x with
  | Fin _ => true
  | _ => false
  end.

Definition set_ylim (ax : axis) (bottom top : float64) : run unit :=
  if is_finite bottom && is_finite top then emit (SetYlim ax bottom top)
  else fail (Py ValueError).

(** [xs[n:]] *)
Definition slice_from {A : Type} (n : nat) (xs : list A) : list A := skipn n xs.

(** [np.max] over all the entries of a 2D array *)
Definition np_max2 (a : ndarray2) : result float64 := np_max (concat (rows a)).

(** [np.round]: to the nearest integer, a tie going to the even one *)
Definition round_half_even (r : R) : Z :=
  let f := Rfloor r in
  if Rltb (r - IZR f) (1 / 2) then f
  else if Rltb (1 / 2) (r - IZR f) then (f + 1)%Z
  else if Z.even f then f else (f + 1)%Z.

Definition fround (x : float64) : float64 :=
  match x with
  | Fin r => of_int (round_half_even r)
  | _ => x
  end.

(** Python's [max(a, b)]: [b] only when [b > a] *)
Definition py_max (a b : float64) : float64 := if fgt b a then b else a.

(** [np.arange(0, stop, 0.5)] *)
Definition arange_half (stop : float64) : result ndarray :=
  match stop with
  | Fin s => Ok (map (fun k => Fin (0 + INR k * (5 / 10))%R)
                     (seq 0 (Z.to_nat (Rceil (s / (5 / 10))))))
  | _ => Raise ValueError
  end.

(** the upper limit of the R axis in [display_REstim2D]:
    [max(np.round(np.max(REstimate) * 5) / 5, 2)] *)
Definition REstim2D_top (REstimate : ndarray2) : result float64 :=
  m <- np_max2 REstimate ;;
  Ok (py_max (fdiv (fround (fmul m (Fin 5))) (Fin 5)) (Fin 2)).

(** the two grid calls and the common tick formatting *)
Definition grid_major : string := "which=major, linestyle=-, alpha=0.6".
Definition grid_minor : string := "which=minor, linestyle=--, alpha=0.3".

(** [RTrue], cropped to its last [n] values when it is longer; [n] is
    [len(data)] *)
Definition crop_RTrue (RTrue : ndarray) (n : nat) : run ndarray :=
  if negb (Nat.eqb (length RTrue) n) then
    lift (py_assert (Nat.ltb n (length RTrue))) >>
    ret (slice_from (length RTrue - n) RTrue)
  else ret RTrue.

(** the estimates: one method, or a comparison of several methods whose
    estimates are indexed by method name *)
Inductive estimates : Type :=
| Single (REstimate : ndarray) (method : string) (OEstimate : option ndarray)
| Comparison (REstimate : list (string * ndarray)) (method : list string)
             (OEstimate : option (list (string * ndarray))).

Definition has_OEstimate (e : estimates) : bool :=
  match e with
  | Single _ _ (Some _) | Comparison _ _ (Some _) => true
  | _ => false
  end.

Section Display.

(** [mdates.datestr2num], on the date strings of the caller *)
Variable datestr2num : string -> result Z.

Definition display_data (dates : list string) (data : ndarray) (title : string)
    (savefig : bool) (savePath : option string) : run (axis * list Z) :=
  formattedDates <~ lift (mapM datestr2num dates) ;;
  emit (Call "plt.subplots" "nrows=1, ncols=1, figsize=(19.5, 9.5)") >>
  emit (Call "fig.tight_layout" "pad=5.0") >>
  emit (Call "plt.ticklabel_format" "axis=both, style=sci, scilimits=(0, 0)") >>
  let ax := Ax 0 in
  plot ax formattedDates data "$\mathsf{Z}_t$" (WithColor (ColorName "black")) >>
  emit (AxSet ax (Some title) "New cases $\mathsf{Z}_t$") >>
  emit (AxCall ax "grid" grid_major) >>
  emit (AxCall ax "grid" grid_minor) >>
  emit (AxCall ax "legend" "loc=upper left") >>
  lf <~ lift (adaptiveDaysLocator formattedDates) ;;
  emit (SetMajorLocator ax (fst lf)) >>
  emit (SetMajorFormatter ax (snd lf)) >>
  top <~ lift (adaptiveYLimit data) ;;
  set_ylim ax (Fin 0) top >>
  emit (Call "format.ScalarFormatterClass" "useMathText=True") >>
  emit (Call "yScalarFormatter.set_powerlimits" "(0, 0)") >>
  emit (AxCall ax "yaxis.set_major_formatter" "yScalarFormatter") >>
  when savefig (emit (Savefig savePath)) >>
  emit (Call "fig.show" "") >>
  ret (ax, formattedDates).

Definition display_REstim (dates : list string) (data : ndarray) (est : estimates)
    (RTrue : option ndarray) (dataDisp savefig : bool) (savePath : option string)
    : run (axis * list Z) :=
  formattedDates <~ lift (mapM datestr2num dates) ;;
  (if dataDisp then
     emit (Call "plt.subplots" "nrows=2, ncols=1, figsize=(19.5, 12)") >>
     emit (Call "fig.tight_layout" "pad=6.5") >>
     emit (Call "fig.subplots_adjust" "hspace=0.3, right=0.99, bottom=0.05, top=0.95")
   else
     emit (Call "plt.subplots" "nrows=1, ncols=1, figsize=(19.5, 9.5)") >>
     emit (Call "fig.tight_layout" "pad=5")) >>
  let axR := if dataDisp then Ax 1 else Ax 0 in
  let ax := Ax 0 in
  emit (Call "plt.ticklabel_format" "axis=both, style=sci, scilimits=(0, 0)") >>
  (if dataDisp then
     plot ax formattedDates data "$\mathsf{Z}$" (WithColor (ColorName "black")) >>
     match est with
     | Comparison _ _ OEstimate =>
         for_each ["U"; "U-O"] (fun m =>
           o <~ getitem_opt OEstimate m ;;
           y <~ lift (np_subtract data o) ;;
           c <~ getitem colors ("denoised" ++ m)%string ;;
           plot ax formattedDates y
             ("$\mathsf{Z}^{\mathsf{denoised}}$ ($\mathsf{" ++ m ++ "}$)")%string (WithColor c))
     | Single _ method (Some OEstimate) =>
         when (existsb (String.eqb method) ["U"; "U-O"])
           (y <~ lift (np_subtract data OEstimate) ;;
            c <~ getitem colors ("denoised" ++ method)%string ;;
            plot ax formattedDates y "$\mathsf{Z}^{\mathsf{denoised}}$ " (WithColor c))
     | Single _ _ None => ret tt
     end >>
     emit (AxCall ax "legend" "loc=upper left") >>
     emit (AxSet ax None "New counts $\mathsf{Z}_t$")
   else
     if has_OEstimate est then fail (Py ValueError) else ret tt) >>
  match est with
  | Comparison REstimate method _ =>
      for_each method (fun m =>
        y <~ getitem REstimate m ;;
        c <~ getitem colors m ;;
        plot axR formattedDates y ("$\mathsf{R}^{\mathsf{" ++ m ++ "}}$")%string (WithColor c)) >>
      emit (AxCall axR "legend" "loc=lower left")
  | Single REstimate method _ =>
      c <~ getitem colors method ;;
      plot axR formattedDates REstimate
        ("$\mathsf{R}^{\mathsf{" ++ method ++ "}}$")%string (WithColor c) >>
      emit (AxCall axR "legend" "loc=lower left")
  end >>
  match RTrue with
  | Some RTrue' =>
      RTrueCropped <~ crop_RTrue RTrue' (length data) ;;
      plot axR formattedDates RTrueCropped "$\mathsf{R}^{\mathrm{true}}$"
        (WithColor (ColorName "black"))
  | None => ret tt
  end >>
  emit (AxSet axR None "$\mathsf{R}_t$") >>
  lf <~ lift (adaptiveDaysLocator formattedDates) ;;
  emit (SetMajorLocator axR (fst lf)) >>
  emit (SetMajorFormatter axR (snd lf)) >>
  emit (Call "format.ScalarFormatterClass" "useMathText=True") >>
  emit (Call "yScalarFormatter.set_powerlimits" "(0, 0)") >>
  set_ylim axR (Fin 0) (Fin 2) >>
  emit (SetYticks axR (series [0; 5 / 10; 1; 15 / 10; 2]%R)) >>
  emit (AxCall axR "grid" grid_major) >>
  emit (AxCall axR "grid" grid_minor) >>
  when dataDisp
    (emit (SetMajorLocator ax (fst lf)) >>
     emit (SetMajorFormatter ax (snd lf)) >>
     top <~ lift (adaptiveYLimit data) ;;
     set_ylim ax (Fin 0) top >>
     emit (AxCall ax "yaxis.set_major_formatter" "yScalarFormatter") >>
     emit (AxCall ax "grid" grid_major) >>
     emit (AxCall ax "grid" grid_minor) >>
     emit (AxCall ax "set_xticklabels" "[]")) >>
  when savefig (emit (Savefig savePath)) >>
  emit (Call "fig.show" "") >>
  ret (ax, formattedDates).

Definition display_dataBuilt (datesBuilt : list string) (dataBuilt RTrue OTrue : ndarray)
    (displayO savefig : bool) (savePath : option string) : run (axis * list Z) :=
  formattedDates <~ lift (mapM datestr2num datesBuilt) ;;
  emit (Call "plt.subplots" "nrows=2, ncols=1, figsize=(19.5, 12)") >>
  emit (Call "fig.tight_layout" "pad=7.5") >>
  emit (Call "fig.subplots_adjust" "hspace=0.3, right=0.99, bottom=0.05, top=0.95") >>
  emit (Call "plt.ticklabel_format" "axis=both, style=sci, scilimits=(0, 0)") >>
  let axR := Ax 0 in
  plot axR formattedDates RTrue "$\mathsf{R}^{\mathrm{true}}$"
    (WithColor (ColorName "black")) >>
  emit (AxSet axR None "$\mathsf{R}_t$") >>
  emit (AxCall axR "legend" "loc=lower left") >>
  let ax := Ax 1 in
  c <~ getitem colors "synthData" ;;
  plot ax formattedDates dataBuilt "$\mathsf{Z}$" (WithColor c) >>
  when displayO
    (y <~ lift (np_subtract dataBuilt OTrue) ;;
     plot ax formattedDates y "$\mathsf{Z} - \mathsf{O}$" (WithColor (ColorName "black"))) >>
  emit (AxCall ax "legend" "loc=upper left") >>
  emit (AxSet ax None "New counts $\mathsf{Z}_t$") >>
  lf <~ lift (adaptiveDaysLocator formattedDates) ;;
  emit (SetMajorLocator axR (fst lf)) >>
  emit (SetMajorFormatter axR (snd lf)) >>
  emit (SetMajorLocator ax (fst lf)) >>
  emit (SetMajorFormatter ax (snd lf)) >>
  emit (Call "format.ScalarFormatterClass" "useMathText=True") >>
  emit (Call "yScalarFormatter.set_powerlimits" "(0, 0)") >>
  set_ylim axR (Fin 0) (Fin 2) >>
  emit (SetYticks axR (series [0; 5 / 10; 1; 15 / 10; 2]%R)) >>
  top <~ lift (adaptiveYLimit dataBuilt) ;;
  set_ylim ax (Fin 0) top >>
  emit (AxCall ax "yaxis.set_major_formatter" "yScalarFormatter") >>
  emit (AxCall axR "grid" grid_major) >>
  emit (AxCall axR "grid" grid_minor) >>
  emit (AxCall ax "grid" grid_major) >>
  emit (AxCall ax "grid" grid_minor) >>
  emit (AxCall ax "set_xticklabels" "[]") >>
  when savefig (emit (Savefig savePath)) >>
  emit (Call "fig.show" "") >>
  ret (ax, formattedDates).

Definition display_REstim2D (dates : list string) (data REstimate : ndarray2)
    (counties : list string) (OEstimate RTrue : option ndarray2)
    (dataDisp savefig : bool) (savePath : option string) (title : string)
    : run (axis * list Z) :=
  let '(nbCounties, days) := np_shape data in
  lift (py_assert (Nat.eqb (length counties) nbCounties)) >>
  formattedDates <~ lift (mapM datestr2num dates) ;;
  (if dataDisp then
     emit (Call "plt.subplots" "nrows=2, ncols=1, figsize=(19.5, 12)") >>
     emit (Call "fig.tight_layout" "pad=7.5") >>
     emit (Call "fig.subplots_adjust" "hspace=0.1, right=0.99, bottom=0.05, top=0.95")
   else
     emit (Call "plt.subplots" "nrows=1, ncols=1, figsize=(19.5, 9.5)") >>
     emit (Call "fig.tight_layout" "pad=5")) >>
  let axR := if dataDisp then Ax 1 else Ax 0 in
  let ax := Ax 0 in
  emit (Call "plt.ticklabel_format" "axis=both, style=sci, scilimits=(0, 0)") >>
  (if dataDisp then
     for_each (seq 0 nbCounties) (fun d =>
       data_dep <~ getrow data d ;;
       county <~ lift (index counties d) ;;
       plot ax formattedDates data_dep
         ("$\boldsymbol{\mathsf{Z}}_{\mathsf{" ++ county ++ "}}$")%string DefaultStyle >>
       match OEstimate with
       | Some OEstimate' =>
           o <~ getrow OEstimate' d ;;
           y <~ lift (np_subtract data_dep o) ;;
           county' <~ lift (index counties d) ;;
           plot ax formattedDates y
             ("$\boldsymbol{\mathsf{Z}}^{\mathsf{denoised}}_{\mathsf{" ++ county' ++ "}}$")%string
             DefaultStyle
       | None => ret tt
       end) >>
     emit (AxCall ax "legend" "loc=upper left") >>
     emit (AxSet ax None "New counts $\mathsf{Z}$")
   else
     match OEstimate with
     | Some _ => fail (Py ValueError)
     | None => ret tt
     end) >>
  for_each (seq 0 nbCounties) (fun d =>
    REstimate_dep <~ getrow REstimate d ;;
    county <~ lift (index counties d) ;;
    plot axR formattedDates REstimate_dep
      ("$\boldsymbol{\mathsf{R}}_{\mathsf{" ++ county ++ "}}$")%string
      (match RTrue with Some _ => Markers | None => DefaultStyle end) >>
    emit (AxCall axR "legend" "loc=lower left")) >>
  match RTrue with
  | Some RTrue' =>
      for_each (seq 0 nbCounties) (fun d =>
        RTrue_dep <~ getrow RTrue' d ;;
        RTrueCropped <~ crop_RTrue RTrue_dep (shape0 data) ;;
        plot axR formattedDates RTrueCropped
          "$\boldsymbol{\mathsf{R}}_{\mathrm{true}}$" Alpha075)
  | None => ret tt
  end >>
  emit (AxSet axR None "$\mathsf{R}$") >>
  lf <~ lift (adaptiveDaysLocator formattedDates) ;;
  emit (SetMajorLocator axR (fst lf)) >>
  emit (SetMajorFormatter axR (snd lf)) >>
  emit (Call "format.ScalarFormatterClass" "useMathText=True") >>
  emit (Call "yScalarFormatter.set_powerlimits" "(0, 0)") >>
  top <~ lift (REstim2D_top REstimate) ;;
  set_ylim axR (Fin 0) top >>
  top' <~ lift (REstim2D_top REstimate) ;;
  ticks <~ lift (arange_half top') ;;
  emit (SetYticks axR ticks) >>
  emit (AxCall axR "grid" grid_major) >>
  emit (AxCall axR "grid" grid_minor) >>
  when dataDisp
    (emit (SetMajorLocator ax (fst lf)) >>
     emit (SetMajorFormatter ax (snd lf)) >>
     ytop <~ lift (adaptiveYLimit (concat (rows data))) ;;
     set_ylim ax (Fin 0) ytop >>
     emit (AxCall ax "yaxis.set_major_formatter" "yScalarFormatter") >>
     emit (AxCall ax "grid" grid_major) >>
     emit (AxCall ax "grid" grid_minor) >>
     emit (AxCall ax "set_xticklabels" "[]")) >>
  emit (Suptitle title) >>
  when savefig (emit (Savefig savePath)) >>
  emit (Call "fig.show" "") >>
  ret (ax, formattedDates).

End Display.

End DisplayFigures.

(** ** Date strings

    The display functions take [datestr2num] as a parameter.  The instance
    below serves the examples: it reads the strings the callers document,
    'YYYY-MM-DD' naming a calendar date of the years 1 to 9999, as the day
    number of that date.  It answers [ValueError] on every other string,
    also on those that the library's parser would still read in another
    format. *)

Module IsoDates.

Import FormattingFigures.
Local Open Scope Z_scope.

Definition digit (c : Ascii.ascii) : option Z :=
  let n := Z.of_nat (Ascii.nat_of_ascii c) in
  if (48 <=? n) && (n <=? 57) then Some (n - 48) else None.

Fixpoint number (cs : list Ascii.ascii) (acc : Z) : option Z :=
  match cs with
  | [] => Some acc
  | c :: cs' =>
      match digit c with
      | Some d => number cs' (10 * acc + d)
      | None => None
      end
  end.

(** the day number of the civil date [y]-[m]-[d] *)
Definition days_from_civil (y m d : Z) : Z :=
  let y' := if m <=? 2 then y - 1 else y in
  let era := y' / 400 in
  let yoe := y' - era * 400 in
  let doy := (153 * (if 2 <? m then m - 3 else m + 9) + 2) / 5 + d - 1 in
  let doe := yoe * 365 + yoe / 4 - yoe / 100 + doy in
  era * 146097 + doe - 719468.

Definition iso_datestr2num (t : string) : result Z :=
  match list_ascii_of_string t with
  | [y1; y2; y3; y4; s1; m1; m2; s2; d1; d2] =>
      match number [y1; y2; y3; y4] 0, number [m1; m2] 0, number [d1; d2] 0 with
      | Some y, Some m, Some d =>
          let n := days_from_civil y m d in
          let date := num2date n in
          if (Ascii.nat_of_ascii s1 =? 45)%nat && (Ascii.nat_of_ascii s2 =? 45)%nat
             && (1 <=? y) && (1 <=? m) && (m <=? 12) && (1 <=? d) && (d <=? 31)
             && (year date =? y) && (month date =? m) && (day date =? d)
          then Ok n
          else Raise ValueError
      | _, _, _ => Raise ValueError
      end
  | _ => Raise ValueError
  end.

End IsoDates.

(** ** Facts about the float model *)

Module NumPyFacts.

Import NumPy Spec.
Local Open Scope R_scope.

Lemma Rltb_true (a b : R) : a < b -> Rltb a b = true.
Proof. intros H; unfold Rltb; destruct (Rlt_dec a b); [reflexivity | contradiction]. Qed.

Lemma Rltb_false (a b : R) : b <= a -> Rltb a b = false.
Proof. intros H; unfold Rltb; destruct (Rlt_dec a b); [lra | reflexivity]. Qed.

Lemma Reqb_refl (a : R) : Reqb a a = true.
Proof. unfold Reqb; destruct (Req_dec_T a a); [reflexivity | contradiction]. Qed.

Lemma Reqb_false (a b : R) : a <> b -> Reqb a b = false.
Proof. intros H; unfold Reqb; destruct (Req_dec_T a b); [contradiction | reflexivity]. Qed.

Lemma inf_of_sign_pos (r : R) : 0 < r -> inf_of_sign r = PInf.
Proof. intros H; unfold inf_of_sign; now rewrite Rltb_true. Qed.

Lemma inf_of_sign_neg (r : R) : r < 0 -> inf_of_sign r = NInf.
Proof.
  intros H; unfold inf_of_sign.
  rewrite Rltb_false by lra. now rewrite Rltb_true.
Qed.

Lemma inf_of_sign_0 : inf_of_sign 0 = NaN.
Proof. unfold inf_of_sign; now rewrite !Rltb_false by lra. Qed.

Lemma fdiv_fin (a b : R) : b <> 0 -> fdiv (Fin a) (Fin b) = Fin (a / b).
Proof. intros H; simpl; now rewrite Reqb_false. Qed.

Lemma fdiv_fin_0 (a : R) : fdiv (Fin a) (Fin 0) = inf_of_sign a.
Proof. simpl; now rewrite Reqb_refl. Qed.

Lemma fmul_1_r (x : float64) : fmul x (Fin 1) = x.
Proof.
  destruct x; simpl.
  - now rewrite Rmult_1_r.
  - apply inf_of_sign_pos; lra.
  - apply inf_of_sign_neg; lra.
  - reflexivity.
Qed.

Lemma fpow_2 (x : float64) : fpow x 2 = fmul x x.
Proof. simpl; now rewrite fmul_1_r. Qed.

Lemma fadd_nan_r (x : float64) : fadd x NaN = NaN.
Proof. now destruct x. Qed.

Lemma fmul_nan_r (x : float64) : fmul x NaN = NaN.
Proof. now destruct x. Qed.

(** *** Sums of finite series *)

Lemma fold_fadd_fin (rs : list R) (acc : R) :
  fold_left fadd (series rs) (Fin acc) = Fin (acc + Rsum rs).
Proof.
  revert acc; induction rs as [|r rs IH]; intros acc; simpl.
  - now rewrite Rplus_0_r.
  - rewrite IH; f_equal; lra.
Qed.

Lemma np_sum_series (rs : list R) : np_sum (series rs) = Fin (Rsum rs).
Proof. unfold np_sum; rewrite fold_fadd_fin; f_equal; lra. Qed.

Lemma Rsum_nonneg (rs : list R) : Forall (fun r => 0 <= r) rs -> 0 <= Rsum rs.
Proof. induction 1; simpl; lra. Qed.

Lemma Rsum_zero (rs : list R) : Forall (fun r => r = 0) rs -> Rsum rs = 0.
Proof. induction 1; simpl; lra. Qed.

(** the sum of a constant array of infinities or nans *)
Lemma fold_fadd_absorb (v : float64) (n : nat) :
  v = PInf \/ v = NaN -> fold_left fadd (repeat v n) v = v.
Proof.
  intros Hv; induction n as [|n IH]; simpl; [reflexivity|].
  replace (fadd v v) with v; [exact IH|].
  destruct Hv; subst v; reflexivity.
Qed.

Lemma np_sum_repeat_absorb (v : float64) (n : nat) :
  v = PInf \/ v = NaN -> (1 <= n)%nat -> np_sum (repeat v n) = v.
Proof.
  intros Hv Hn; destruct n as [|n]; [lia|].
  unfold np_sum; cbn [repeat fold_left].
  replace (fadd (Fin 0) v) with v by (destruct Hv; subst v; reflexivity).
  now apply fold_fadd_absorb.
Qed.

End NumPyFacts.

(** ** Properties of SNR.py *)

Module SNRFacts.

Import NumPy Spec SNR NumPyFacts.
Local Open Scope R_scope.

Lemma series_length (rs : list R) : length (series rs) = length rs.
Proof. apply length_map. Qed.

Lemma from1_series (rs : list R) : from1 (series rs) = series (tl rs).
Proof. now destruct rs. Qed.

(** the difference of two series of one length, index by index *)
Lemma np_sub_series (a b : list R) :
  length a = length b ->
  np_sub (series a) (series b)
  = series (map (fun i => nth i a 0 - nth i b 0) (seq 0 (length a))).
Proof.
  revert b; induction a as [|x a IH]; intros [|y b] Hlen; simpl in Hlen;
    try discriminate; [reflexivity|].
  injection Hlen as Hlen.
  cbn [np_sub series map zip_with length seq nth].
  f_equal.
  fold (series a) (series b) (np_sub (series a) (series b)).
  rewrite (IH b Hlen). unfold series. f_equal.
  rewrite <- seq_shift, map_map. reflexivity.
Qed.

(** the same on the slices [a[1:]] and [b[1:]], in the indices of [a], [b] *)
Lemma np_sub_series_from1 (a b : list R) :
  length a = length b ->
  np_sub (from1 (series a)) (from1 (series b))
  = series (map (fun i => nth i a 0 - nth i b 0) (seq 1 (length a - 1))).
Proof.
  intros Hlen. rewrite !from1_series.
  destruct a as [|x a], b as [|y b]; simpl in Hlen; try discriminate;
    [reflexivity|].
  injection Hlen as Hlen.
  cbn [tl length]. rewrite Nat.sub_succ, Nat.sub_0_r.
  rewrite (np_sub_series a b Hlen). unfold series. f_equal.
  rewrite <- seq_shift, map_map. reflexivity.
Qed.

Lemma np_abs_series (rs : list R) : np_abs (series rs) = series (map Rabs rs).
Proof. unfold np_abs, series; now rewrite !map_map. Qed.

Lemma np_pow_series_2 (rs : list R) :
  np_pow (series rs) 2 = series (map (fun r => r ^ 2) rs).
Proof. unfold np_pow, series; rewrite !map_map; reflexivity. Qed.

Lemma series_self (rs : list R) :
  series rs = series (map (fun i => nth i rs 0) (seq 0 (length rs))).
Proof.
  f_equal. induction rs as [|r rs IH]; [reflexivity|].
  cbn [length seq map nth]. f_equal.
  rewrite <- seq_shift, map_map. exact IH.
Qed.

(** the sum of the absolute differences over [1, N) *)
Lemma sum_abs_from1 (gt est : list R) :
  length gt = length est ->
  np_sum (np_abs (np_sub (from1 (series est)) (from1 (series gt))))
  = Fin (sum_range (absdiff gt est) 1 (length gt - 1)).
Proof.
  intros Hlen. rewrite np_sub_series_from1 by now symmetry.
  rewrite np_abs_series, np_sum_series, map_map, <- Hlen. reflexivity.
Qed.

(** the sum of the squared absolute differences over [1, N) *)
Lemma sum_sq_from1 (gt est : list R) :
  length gt = length est ->
  np_sum (np_pow (np_abs (np_sub (from1 (series est)) (from1 (series gt)))) 2)
  = Fin (sum_range (fun i => absdiff gt est i ^ 2) 1 (length gt - 1)).
Proof.
  intros Hlen. rewrite np_sub_series_from1 by now symmetry.
  rewrite np_abs_series, np_pow_series_2, np_sum_series, !map_map, <- Hlen.
  reflexivity.
Qed.

(** the sum of the squared absolute differences over [0, N) *)
Lemma sum_sq_all (gt est : list R) :
  length gt = length est ->
  np_sum (np_pow (np_abs (np_sub (series est) (series gt))) 2)
  = Fin (sum_range (fun i => absdiff gt est i ^ 2) 0 (length gt)).
Proof.
  intros Hlen. rewrite np_sub_series by now symmetry.
  rewrite np_abs_series, np_pow_series_2, np_sum_series, !map_map, <- Hlen.
  reflexivity.
Qed.

(** the signal power *)
Lemma sum_sq_signal (gt : list R) :
  np_sum (np_pow (np_abs (series gt)) 2)
  = Fin (sum_range (fun i => Rabs (nth i gt 0) ^ 2) 0 (length gt)).
Proof.
  rewrite (series_self gt) at 1.
  rewrite np_abs_series, np_pow_series_2, np_sum_series, !map_map. reflexivity.
Qed.

(** the assertion is the only source of [AssertionError] *)
Lemma SNR_mismatch (gt est : ndarray) :
  length gt <> length est -> SignaltoNoiseRatio gt est = Raise AssertionError.
Proof.
  intros H. unfold SignaltoNoiseRatio.
  apply Nat.eqb_neq in H. now rewrite H.
Qed.

(** on two non-empty arrays of one length the function returns *)
Lemma SNR_returns (gt est : ndarray) :
  length gt = length est -> (1 <= length gt)%nat ->
  exists v, SignaltoNoiseRatio gt est = Ok v.
Proof.
  intros Hlen Hn. unfold SignaltoNoiseRatio.
  rewrite Hlen, Nat.eqb_refl.
  destruct gt as [|g gt], est as [|e est]; simpl in *; try lia.
  eexists; reflexivity.
Qed.

Lemma SNR_series (gt est : list R) :
  length gt = length est -> (1 <= length gt)%nat ->
  SignaltoNoiseRatio (series gt) (series est) = Ok (snr_signed gt est).
Proof.
  intros Hlen Hn. unfold SignaltoNoiseRatio.
  rewrite !series_length, Hlen, Nat.eqb_refl. cbn [py_assert bind].
  rewrite <- Hlen.
  rewrite sum_abs_from1, sum_sq_from1, sum_sq_all, sum_sq_signal by assumption.
  destruct gt as [|g gt], est as [|e est]; simpl in Hlen, Hn; try lia.
  cbn [series map index nth_error bind].
  unfold snr_signed, snr_formula, squaredError, errorMean, diff.
  cbn [nth fsub fneg fadd].
  replace (e + - g) with (e - g) by lra.
  destruct (fgt _ _); reflexivity.
Qed.

End SNRFacts.

Module SNRProps.

Import NumPy Spec SNR NumPyFacts SNRFacts.
Local Open Scope R_scope.

Lemma ln10_pos : 0 < ln 10.
Proof. rewrite <- ln_1. apply ln_increasing; lra. Qed.

Lemma flog10_fin (r : R) : 0 < r -> flog10 (Fin r) = Fin (ln r / ln 10).
Proof. intros H; simpl; now rewrite Rltb_true. Qed.

Lemma fgt_fin_true (a b : R) : b < a -> fgt (Fin a) (Fin b) = true.
Proof. intros H; simpl; now apply Rltb_true. Qed.

Lemma fgt_fin_false (a b : R) : a <= b -> fgt (Fin a) (Fin b) = false.
Proof. intros H; simpl; now apply Rltb_false. Qed.

(** the decibel value of a finite positive ratio, and its sign *)
Lemma decibel_fin (r : R) :
  0 < r -> fmul (Fin 10) (flog10 (Fin r)) = Fin (10 * (ln r / ln 10)).
Proof. intros H; now rewrite flog10_fin. Qed.

Lemma decibel_neg (r : R) : 0 < r < 1 -> 10 * (ln r / ln 10) < 0.
Proof.
  intros [H0 H1]. pose proof ln10_pos as H10.
  assert (Hln : ln r < 0) by (rewrite <- ln_1; now apply ln_increasing).
  assert (Hq : ln r / ln 10 < 0).
  { unfold Rdiv. apply Rmult_neg_pos; [exact Hln | now apply Rinv_0_lt_compat]. }
  lra.
Qed.

Lemma decibel_pos (r : R) : 1 < r -> 0 < 10 * (ln r / ln 10).
Proof.
  intros H1. pose proof ln10_pos as H10.
  assert (Hln : 0 < ln r) by (rewrite <- ln_1; apply ln_increasing; lra).
  assert (Hq : 0 < ln r / ln 10) by now apply Rdiv_lt_0_compat.
  lra.
Qed.

Lemma decibel_one : 10 * (ln 1 / ln 10) = 0.
Proof. rewrite ln_1. unfold Rdiv. lra. Qed.

(** C1, as amended: for two real-valued series of one length [N >= 2],
    [SignaltoNoiseRatio] returns [10 * log10 (sum |groundTruth[i]|^2 /
    squaredError)], where [errorMean] is the mean absolute difference over
    the indices [1, N) and [squaredError] is the sum of the squared absolute
    differences over [1, N) when the signed difference
    [estimation[0] - groundTruth[0]] divided by [errorMean] exceeds 100000,
    and over [0, N) otherwise. *)
Theorem SignaltoNoiseRatio_formula (groundTruth estimation : list R) :
  length groundTruth = length estimation ->
  (2 <= length groundTruth)%nat ->
  SignaltoNoiseRatio (series groundTruth) (series estimation)
  = Ok (snr_formula groundTruth estimation
          (nth 0 estimation 0 - nth 0 groundTruth 0)).
Proof.
  intros Hlen HN. apply SNR_series; [exact Hlen | lia].
Qed.

Lemma SignaltoNoiseRatio_formula_witness :
  SignaltoNoiseRatio (series [1; 2; 3]) (series [1; 2; 4])
  = Ok (snr_formula [1; 2; 3] [1; 2; 4] (nth 0 [1; 2; 4] 0 - nth 0 [1; 2; 3] 0)).
Proof.
  apply (SignaltoNoiseRatio_formula [1; 2; 3] [1; 2; 4]); simpl; [reflexivity | lia].
Defined.

(** C1, as stated, fails: with ground truth [0, 1] and estimation
    [-1000000, 2] the absolute difference at index 0 is 1000000 times
    [errorMean = 1], so the claim's formula drops index 0 and gives 0 dB,
    while the code, whose test is on the signed difference, keeps index 0 and
    returns a negative value. *)
Lemma SignaltoNoiseRatio_abs_test_fails :
  snr_claimed [0; 1] [-1000000; 2] = Fin 0 /\
  (exists v, v < 0 /\
     SignaltoNoiseRatio (series [0; 1]) (series [-1000000; 2]) = Ok (Fin v)) /\
  SignaltoNoiseRatio (series [0; 1]) (series [-1000000; 2])
  <> Ok (snr_claimed [0; 1] [-1000000; 2]).
Proof.
  cut (snr_claimed [0; 1] [-1000000; 2] = Fin 0 /\
       exists v, v < 0 /\
         SignaltoNoiseRatio (series [0; 1]) (series [-1000000; 2]) = Ok (Fin v)).
  { intros [Hc [v [Hv Hs]]]. split; [exact Hc|]. split; [now exists v|].
    rewrite Hc, Hs. intros Heq. injection Heq as Heq. lra. }
  assert (Hmean : errorMean [0; 1] [-1000000; 2] = Fin 1).
  { unfold errorMean, sum_range, absdiff, of_int; simpl.
    replace (2 - 1) with 1 by lra. rewrite Rabs_R1.
    rewrite Reqb_false by lra. f_equal; lra. }
  split.
  - unfold snr_claimed, snr_formula, squaredError. rewrite Hmean.
    unfold absdiff at 1. cbn [nth].
    replace (-1000000 - 0) with (- (1000000)) by lra.
    rewrite Rabs_Ropp, Rabs_pos_eq by lra.
    rewrite (fdiv_fin 1000000 1) by lra. rewrite fgt_fin_true by lra.
    unfold sum_range, absdiff.
    cbn [length Nat.sub seq map Rsum fold_right nth].
    replace (2 - 1) with 1 by lra. rewrite Rabs_R0, Rabs_R1.
    rewrite fdiv_fin by lra.
    replace ((0 ^ 2 + (1 ^ 2 + 0)) / (1 ^ 2 + 0)) with 1 by (simpl; lra).
    rewrite decibel_fin by lra. now rewrite decibel_one.
  - rewrite SNR_series by (simpl; lia).
    unfold snr_signed, snr_formula, squaredError. rewrite Hmean.
    unfold diff. cbn [nth].
    rewrite (fdiv_fin (-1000000 - 0) 1) by lra. rewrite fgt_fin_false by lra.
    unfold sum_range, absdiff.
    cbn [length Nat.sub seq map Rsum fold_right nth].
    replace (-1000000 - 0) with (- (1000000)) by lra.
    replace (2 - 1) with 1 by lra.
    rewrite Rabs_Ropp, Rabs_R0, Rabs_R1, (Rabs_pos_eq 1000000) by lra.
    rewrite fdiv_fin by (simpl; lra).
    replace ((0 ^ 2 + (1 ^ 2 + 0)) / (1000000 ^ 2 + (1 ^ 2 + 0)))
      with (/ 1000000000001) by (simpl; field_simplify_eq; lra).
    assert (Hx : 0 < / 1000000000001 < 1).
    { split; [apply Rinv_0_lt_compat; lra|].
      rewrite <- Rinv_1. apply Rinv_lt_contravar; lra. }
    rewrite decibel_fin by apply Hx.
    eexists; split; [|reflexivity]. now apply decibel_neg.
Qed.

(** C4: [SignaltoNoiseRatio] raises its length-mismatch error, and so
    returns no number, exactly when the two series differ in length; on
    series of one length that error is not raised. *)
Theorem SignaltoNoiseRatio_length_mismatch (groundTruth estimation : ndarray) :
  (SignaltoNoiseRatio groundTruth estimation = Raise AssertionError
   <-> length groundTruth <> length estimation) /\
  (length groundTruth <> length estimation ->
   forall v, SignaltoNoiseRatio groundTruth estimation <> Ok v).
Proof.
  split; [split|].
  - intros Hraise Hlen. unfold SignaltoNoiseRatio in Hraise.
    rewrite Hlen, Nat.eqb_refl in Hraise. cbn [py_assert bind] in Hraise.
    destruct estimation as [|e est]; [discriminate|].
    destruct groundTruth as [|g gt]; discriminate.
  - apply SNR_mismatch.
  - intros Hlen v. rewrite SNR_mismatch by exact Hlen. discriminate.
Qed.

(** C9: [SignaltoNoiseRatio] is not symmetric: the series [1, 1] and
    [2, 2], of one length and of different magnitudes, give 0 dB one way
    round and a positive value the other way round. *)
Theorem SignaltoNoiseRatio_not_symmetric :
  exists a b : list R,
    length a = length b /\
    sum_range (fun i => Rabs (nth i a 0) ^ 2) 0 (length a)
    <> sum_range (fun i => Rabs (nth i b 0) ^ 2) 0 (length b) /\
    SignaltoNoiseRatio (series a) (series b)
    <> SignaltoNoiseRatio (series b) (series a).
Proof.
  exists [1; 1], [2; 2]. split; [reflexivity|]. split.
  - unfold sum_range; simpl. rewrite Rabs_R1, (Rabs_pos_eq 2) by lra. lra.
  - rewrite !SNR_series by (simpl; lia).
    assert (Hmean1 : errorMean [1; 1] [2; 2] = Fin 1).
    { unfold errorMean, sum_range, absdiff, of_int; simpl.
      replace (2 - 1) with 1 by lra. rewrite Rabs_R1.
      rewrite Reqb_false by lra. f_equal; lra. }
    assert (Hmean2 : errorMean [2; 2] [1; 1] = Fin 1).
    { unfold errorMean, sum_range, absdiff, of_int; simpl.
      replace (1 - 2) with (- (1)) by lra. rewrite Rabs_Ropp, Rabs_R1.
      rewrite Reqb_false by lra. f_equal; lra. }
    unfold snr_signed, snr_formula, squaredError. rewrite Hmean1, Hmean2.
    unfold diff. cbn [nth].
    rewrite (fdiv_fin (2 - 1) 1), (fdiv_fin (1 - 2) 1) by lra.
    rewrite !fgt_fin_false by lra.
    unfold sum_range, absdiff.
    cbn [length Nat.sub seq map Rsum fold_right nth].
    replace (2 - 1) with 1 by lra. replace (1 - 2) with (- (1)) by lra.
    rewrite Rabs_Ropp, Rabs_R1, (Rabs_pos_eq 2) by lra.
    rewrite !fdiv_fin by (simpl; lra).
    replace ((1 ^ 2 + (1 ^ 2 + 0)) / (1 ^ 2 + (1 ^ 2 + 0)))
      with 1 by (simpl; lra).
    replace ((2 ^ 2 + (2 ^ 2 + 0)) / (1 ^ 2 + (1 ^ 2 + 0)))
      with 4 by (simpl; lra).
    rewrite !decibel_fin by lra. rewrite decibel_one.
    intros Heq. injection Heq as Heq.
    pose proof (decibel_pos 4 ltac:(lra)). lra.
Qed.

End SNRProps.

(** ** Loops over the rows of an array *)

Module LoopFacts.

Import NumPy SNR.

Lemma mapM_ext {A B : Type} (f g : A -> result B) (xs : list A) :
  (forall x, f x = g x) -> mapM f xs = mapM g xs.
Proof.
  intros Hfg; induction xs as [|x xs IH]; simpl; [reflexivity|].
  now rewrite Hfg, IH.
Qed.

Lemma mapM_map {A B C : Type} (f : B -> result C) (g : A -> B) (xs : list A) :
  mapM f (map g xs) = mapM (fun x => f (g x)) xs.
Proof.
  induction xs as [|x xs IH]; simpl; [reflexivity|]. now rewrite IH.
Qed.

(** a loop that returns, returns one value per element, each the body's *)
Lemma mapM_Ok {A B : Type} (f : A -> result B) (xs : list A) (ys : list B) :
  mapM f xs = Ok ys <-> Forall2 (fun x y => f x = Ok y) xs ys.
Proof.
  revert ys; induction xs as [|x xs IH]; intros ys; simpl.
  - split.
    + intros H; injection H as <-; constructor.
    + intros H; inversion H; reflexivity.
  - split.
    + destruct (f x) as [y|e] eqn:Hfx; simpl; [|discriminate].
      destruct (mapM f xs) as [ys'|e] eqn:Hrest; simpl; [|discriminate].
      intros H; injection H as <-. constructor; [exact Hfx | now apply IH].
    + intros H; inversion H as [|x' y xs' ys' Hfx Hrest]; subst.
      apply IH in Hrest. now rewrite Hfx, Hrest.
Qed.

(** a loop whose body returns on every element returns *)
Lemma mapM_total {A B : Type} (f : A -> result B) (xs : list A) :
  Forall (fun x => exists y, f x = Ok y) xs -> exists ys, mapM f xs = Ok ys.
Proof.
  induction 1 as [|x xs [y Hy] _ [ys Hys]]; simpl.
  - now exists [].
  - exists (y :: ys). now rewrite Hy, Hys.
Qed.

(** [for d in range(len(rs)): f(rs[d])] visits the rows in order *)
Lemma mapM_rows {B : Type} (f : ndarray -> result B) (a : ndarray2) :
  length (rows a) = shape0 a ->
  mapM (fun d => r <- row a d ;; f r) (seq 0 (shape0 a)) = mapM f (rows a).
Proof.
  intros <-. unfold row. induction (rows a) as [|r rs IH]; [reflexivity|].
  cbn [length seq mapM]. rewrite <- seq_shift, mapM_map.
  cbn [index nth_error bind]. f_equal.
  rewrite <- IH. reflexivity.
Qed.

(** the same for two arrays read side by side *)
Lemma mapM_rows2 {B : Type} (f : ndarray -> ndarray -> result B) (a b : ndarray2) :
  length (rows a) = shape0 b -> length (rows b) = shape0 b ->
  mapM (fun d => x <- row a d ;; y <- row b d ;; f x y) (seq 0 (shape0 b))
  = mapM (fun p => f (fst p) (snd p)) (combine (rows a) (rows b)).
Proof.
  intros Ha Hb. rewrite <- Hb in Ha |- *. unfold row. clear Hb.
  revert Ha. generalize (rows a) as ra.
  induction (rows b) as [|y ys IH]; intros [|x xs] Ha; simpl in Ha;
    try discriminate; [reflexivity|].
  injection Ha as Ha.
  cbn [length seq mapM combine]. rewrite <- seq_shift, mapM_map.
  cbn [index nth_error bind fst snd]. f_equal.
  rewrite <- (IH xs Ha). reflexivity.
Qed.

End LoopFacts.

(** ** The aggregates of SNR.py *)

Module SNRAggregates.

Import NumPy Spec SNR NumPyFacts SNRFacts SNRProps LoopFacts.
Local Open Scope R_scope.

Lemma IZR_of_nat_pos (n : nat) : (1 <= n)%nat -> 0 < IZR (Z.of_nat n).
Proof. intros H. apply IZR_lt. lia. Qed.

(** [(1 / n) * s] is [s / n], also when [s] is infinite or nan *)
Lemma fmul_inv_fdiv (s : float64) (n : nat) :
  (1 <= n)%nat -> fmul (Fin (1 / IZR (Z.of_nat n))) s = fdiv s (of_nat n).
Proof.
  intros Hn. pose proof (IZR_of_nat_pos n Hn) as Hpos.
  assert (Hinv : 0 < 1 / IZR (Z.of_nat n)) by (apply Rdiv_lt_0_compat; lra).
  unfold of_nat, of_int. destruct s as [r| | |]; simpl.
  - rewrite Reqb_false by lra. f_equal. field. lra.
  - rewrite inf_of_sign_pos by exact Hinv. now rewrite Rltb_false by lra.
  - rewrite inf_of_sign_neg by lra. now rewrite Rltb_false by lra.
  - reflexivity.
Qed.

(** NumPy's standard deviation with its default [ddof = 0] is the
    population standard deviation *)
Lemma np_std_pop_std (xs : ndarray) : np_std xs = pop_std xs.
Proof.
  unfold np_std, np_std_ddof, pop_std, arith_mean.
  rewrite Nat.sub_0_r, map_map. do 3 f_equal.
  apply map_ext. intros a. now rewrite fpow_2.
Qed.

Lemma py_inv_pos (n : nat) :
  (1 <= n)%nat -> py_inv n = Ok (Fin (1 / IZR (Z.of_nat n))).
Proof. intros H. unfold py_inv. destruct n; [lia | reflexivity]. Qed.

(** the Monte-Carlo aggregate, given the per-draw values *)
Lemma MC_of_draws (gt : ndarray) (ests : list ndarray) (snrs : ndarray) :
  (1 <= length ests)%nat ->
  mapM (SignaltoNoiseRatio gt) ests = Ok snrs ->
  SignaltoNoiseRatioMC gt (mk_ndarray2 (length ests) (length gt) ests)
  = Ok (arith_mean snrs, half_width snrs).
Proof.
  intros HM Hloop. unfold SignaltoNoiseRatioMC. cbn [np_shape shape0 shape1].
  rewrite Nat.eqb_refl. cbn [py_assert bind].
  pose proof (mapM_rows (SignaltoNoiseRatio gt)
                (mk_ndarray2 (length ests) (length gt) ests) eq_refl) as Hrows.
  cbn [shape0 rows] in Hrows. rewrite Hrows, Hloop. cbn [bind].
  assert (Hlen : length snrs = length ests).
  { apply mapM_Ok in Hloop. symmetry. eapply Forall2_length; eassumption. }
  rewrite py_inv_pos by exact HM. cbn [bind].
  rewrite fmul_inv_fdiv by exact HM.
  unfold arith_mean, half_width. rewrite np_std_pop_std, Hlen. reflexivity.
Qed.

(** C3: for a ground truth of length [N >= 2] and [M >= 1] draws of length
    [N], each draw has its [SignaltoNoiseRatio] value, and
    [SignaltoNoiseRatioMC] returns the arithmetic mean of these [M] values
    together with [1.96 / sqrt M] times their population standard deviation
    (divisor [M]). *)
Theorem SignaltoNoiseRatioMC_mean_halfwidth
    (groundTruth : list R) (estimations : list (list R)) :
  (2 <= length groundTruth)%nat ->
  (1 <= length estimations)%nat ->
  Forall (fun e => length e = length groundTruth) estimations ->
  exists snrs : ndarray,
    Forall2 (fun e v => SignaltoNoiseRatio (series groundTruth) (series e) = Ok v)
            estimations snrs /\
    SignaltoNoiseRatioMC (series groundTruth)
      (mk_ndarray2 (length estimations) (length groundTruth)
                   (map series estimations))
    = Ok (fdiv (np_sum snrs) (of_nat (length estimations)),
          fmul (fdiv (Fin (196 / 100)) (fsqrt (of_nat (length estimations))))
               (pop_std snrs)).
Proof.
  intros HN HM Hlens.
  exists (map (snr_signed groundTruth) estimations).
  assert (Hall : Forall2
            (fun e v => SignaltoNoiseRatio (series groundTruth) (series e) = Ok v)
            estimations (map (snr_signed groundTruth) estimations)).
  { clear HM. induction Hlens as [|e es He _ IH]; constructor; [|exact IH].
    apply SNR_series; [now symmetry | lia]. }
  split; [exact Hall|].
  assert (Hloop : mapM (SignaltoNoiseRatio (series groundTruth))
                       (map series estimations)
                  = Ok (map (snr_signed groundTruth) estimations)).
  { rewrite mapM_map. now apply mapM_Ok. }
  pose proof (MC_of_draws (series groundTruth) (map series estimations) _
                ltac:(now rewrite length_map) Hloop) as HMC.
  rewrite series_length, !length_map in HMC. rewrite HMC.
  unfold arith_mean, half_width. now rewrite !length_map.
Qed.

Lemma SignaltoNoiseRatioMC_mean_halfwidth_witness :
  exists snrs : ndarray,
    Forall2 (fun e v => SignaltoNoiseRatio (series [1; 2; 3]) (series e) = Ok v)
            [[1; 2; 4]; [2; 2; 2]] snrs /\
    SignaltoNoiseRatioMC (series [1; 2; 3])
      (mk_ndarray2 2 3 (map series [[1; 2; 4]; [2; 2; 2]]))
    = Ok (fdiv (np_sum snrs) (of_nat 2),
          fmul (fdiv (Fin (196 / 100)) (fsqrt (of_nat 2))) (pop_std snrs)).
Proof.
  apply (SignaltoNoiseRatioMC_mean_halfwidth [1; 2; 3] [[1; 2; 4]; [2; 2; 2]]).
  - simpl; lia.
  - simpl; lia.
  - repeat constructor.
Defined.

(** *** Identical draws *)

Lemma sum_range_zero (f : nat -> R) (lo n : nat) :
  (forall i, f i = 0) -> sum_range f lo n = 0.
Proof.
  intros Hf. unfold sum_range. apply Rsum_zero.
  apply Forall_forall. intros r Hr. apply in_map_iff in Hr as [i [<- _]]. apply Hf.
Qed.

Lemma sum_range_nonneg (f : nat -> R) (lo n : nat) :
  (forall i, 0 <= f i) -> 0 <= sum_range f lo n.
Proof.
  intros Hf. unfold sum_range. apply Rsum_nonneg.
  apply Forall_forall. intros r Hr. apply in_map_iff in Hr as [i [<- _]]. apply Hf.
Qed.

Lemma absdiff_self (gt : list R) (i : nat) : absdiff gt gt i = 0.
Proof. unfold absdiff. rewrite Rminus_diag. apply Rabs_R0. Qed.

(** A series against itself: both the error mean and the squared error are
    0, the outlier test is [0 / 0 > 100000], false, and the result is
    [10 * log10 (power / 0)]: +inf, or nan when the power is 0 too. *)
Lemma SNR_self (gt : list R) :
  (2 <= length gt)%nat ->
  SignaltoNoiseRatio (series gt) (series gt)
  = Ok (if Rltb 0 (sum_range (fun i => Rabs (nth i gt 0) ^ 2) 0 (length gt))
        then PInf else NaN).
Proof.
  intros HN. rewrite SNR_series by (try reflexivity; lia).
  unfold snr_signed, snr_formula, squaredError, errorMean, diff.
  rewrite Rminus_diag.
  rewrite (sum_range_zero (absdiff gt gt)) by apply absdiff_self.
  assert (Hsq : forall lo n, sum_range (fun i => absdiff gt gt i ^ 2) lo n = 0).
  { intros lo n. apply sum_range_zero. intros i. rewrite absdiff_self. simpl; lra. }
  rewrite !Hsq.
  assert (Hden : IZR (Z.of_nat (length gt) - 1) <> 0).
  { apply not_0_IZR. lia. }
  unfold of_int. rewrite (fdiv_fin 0 _ Hden).
  replace (0 / IZR (Z.of_nat (length gt) - 1)) with 0 by (field; exact Hden).
  rewrite (fdiv_fin_0 0), inf_of_sign_0. cbn [fgt].
  rewrite fdiv_fin_0.
  set (power := sum_range _ _ _).
  assert (Hpow : 0 <= power).
  { apply sum_range_nonneg. intros i. apply pow2_ge_0. }
  unfold inf_of_sign. unfold Rltb at 1 3.
  destruct (Rlt_dec 0 power) as [Hpos|Hnpos].
  - cbn [flog10 fmul]. apply f_equal. apply inf_of_sign_pos. lra.
  - rewrite Rltb_false by lra. reflexivity.
Qed.

Lemma mapM_repeat {A B : Type} (f : A -> result B) (x : A) (y : B) (n : nat) :
  f x = Ok y -> mapM f (repeat x n) = Ok (repeat y n).
Proof.
  intros Hf. induction n as [|n IH]; simpl; [reflexivity|]. now rewrite Hf, IH.
Qed.

(** the mean of [M] equal infinite or nan values is that value *)
Lemma arith_mean_absorb (v : float64) (M : nat) :
  v = PInf \/ v = NaN -> (1 <= M)%nat -> arith_mean (repeat v M) = v.
Proof.
  intros Hv HM. unfold arith_mean.
  rewrite np_sum_repeat_absorb, repeat_length by assumption.
  pose proof (IZR_of_nat_pos M HM) as Hpos.
  destruct Hv; subst v; unfold of_nat, of_int; simpl; [|reflexivity].
  now rewrite Rltb_false by lra.
Qed.

(** their deviations from it are [inf - inf], nan, and so is the half-width *)
Lemma half_width_absorb (v : float64) (M : nat) :
  v = PInf \/ v = NaN -> (1 <= M)%nat -> half_width (repeat v M) = NaN.
Proof.
  intros Hv HM. unfold half_width, pop_std.
  rewrite arith_mean_absorb by assumption.
  rewrite map_repeat.
  replace (fpow (fsub v v) 2) with NaN by (destruct Hv; subst v; reflexivity).
  rewrite np_sum_repeat_absorb by (auto; exact HM).
  cbn [fdiv fsqrt]. apply fmul_nan_r.
Qed.

Lemma MC_identical (gt : list R) (M : nat) (v : float64) :
  (2 <= length gt)%nat -> (1 <= M)%nat ->
  v = (if Rltb 0 (sum_range (fun i => Rabs (nth i gt 0) ^ 2) 0 (length gt))
       then PInf else NaN) ->
  SignaltoNoiseRatioMC (series gt)
    (mk_ndarray2 M (length gt) (repeat (series gt) M))
  = Ok (v, NaN).
Proof.
  intros HN HM Hv.
  assert (Hcase : v = PInf \/ v = NaN) by (subst v; destruct (Rltb _ _); auto).
  pose proof (mapM_repeat _ _ _ M (SNR_self gt HN)) as Hloop. rewrite <- Hv in Hloop.
  pose proof (MC_of_draws (series gt) (repeat (series gt) M) (repeat v M)
                ltac:(now rewrite repeat_length) Hloop) as HMC.
  rewrite repeat_length, series_length in HMC. rewrite HMC.
  now rewrite arith_mean_absorb, half_width_absorb.
Qed.

(** C8, as amended: for a ground truth of length [N >= 2] and [M >= 1]
    draws all equal to it, [SignaltoNoiseRatioMC] returns as [meanSNR] the
    single-draw value of the ground truth against itself, which is +inf or
    nan (the signal power divided by a squared error of zero), and as
    [errorSNR] nan. *)
Theorem SignaltoNoiseRatioMC_identical_draws (groundTruth : list R) (M : nat) :
  (2 <= length groundTruth)%nat ->
  (1 <= M)%nat ->
  exists v : float64,
    (v = PInf \/ v = NaN) /\
    SignaltoNoiseRatio (series groundTruth) (series groundTruth) = Ok v /\
    SignaltoNoiseRatioMC (series groundTruth)
      (mk_ndarray2 M (length groundTruth) (repeat (series groundTruth) M))
    = Ok (v, NaN).
Proof.
  intros HN HM. eexists. split; [|split].
  - shelve.
  - apply SNR_self. exact HN.
  - apply MC_identical; [exact HN | exact HM | reflexivity].
  Unshelve. destruct (Rltb _ _); auto.
Qed.

Lemma SignaltoNoiseRatioMC_identical_draws_witness :
  exists v : float64,
    (v = PInf \/ v = NaN) /\
    SignaltoNoiseRatio (series [1; 1]) (series [1; 1]) = Ok v /\
    SignaltoNoiseRatioMC (series [1; 1])
      (mk_ndarray2 3 2 (repeat (series [1; 1]) 3))
    = Ok (v, NaN).
Proof.
  apply (SignaltoNoiseRatioMC_identical_draws [1; 1] 3); simpl; lia.
Defined.

(** C8, as stated, fails: with ground truth [1, 1] and one draw equal to
    it, [errorSNR] is nan (the deviation of +inf from the mean +inf), and so
    is not 0. *)
Lemma SignaltoNoiseRatioMC_identical_draws_error_nan :
  SignaltoNoiseRatioMC (series [1; 1]) (mk_ndarray2 1 2 [series [1; 1]])
  = Ok (PInf, NaN) /\
  forall meanSNR : float64,
    SignaltoNoiseRatioMC (series [1; 1]) (mk_ndarray2 1 2 [series [1; 1]])
    <> Ok (meanSNR, Fin 0).
Proof.
  assert (H : SignaltoNoiseRatioMC (series [1; 1]) (mk_ndarray2 1 2 [series [1; 1]])
              = Ok (PInf, NaN)).
  { apply (MC_identical [1; 1] 1 PInf); [simpl; lia | lia |].
    rewrite Rltb_true; [reflexivity|].
    unfold sum_range; simpl. rewrite Rabs_R1. lra. }
  split; [exact H|]. intros m. rewrite H. discriminate.
Qed.

(** *** Per-unit values and their mean *)

Lemma Forall2_nth_error {A B : Type} (P : A -> B -> Prop)
    (xs : list A) (ys : list B) (d : nat) (x : A) :
  Forall2 P xs ys -> nth_error xs d = Some x ->
  exists y, nth_error ys d = Some y /\ P x y.
Proof.
  intros H; revert d; induction H as [|x' y' xs ys Hxy _ IH]; intros d Hd.
  - destruct d; discriminate.
  - destruct d as [|d]; simpl in Hd.
    + injection Hd as <-. now exists y'.
    + now apply IH.
Qed.

Lemma nth_error_combine {A B : Type} (xs : list A) (ys : list B) (d : nat)
    (x : A) (y : B) :
  nth_error xs d = Some x -> nth_error ys d = Some y ->
  nth_error (combine xs ys) d = Some (x, y).
Proof.
  revert ys d; induction xs as [|x' xs IH]; intros [|y' ys] [|d] Hx Hy;
    simpl in *; try discriminate.
  - now injection Hx as <-; injection Hy as <-.
  - now apply IH.
Qed.

Lemma ByDep_rows (gt est : ndarray2) :
  wf2 gt -> wf2 est -> shape0 gt = shape0 est -> shape1 gt = shape1 est ->
  SNRByDep_indic gt est
  = mapM (fun p => SignaltoNoiseRatio (fst p) (snd p)) (combine (rows gt) (rows est)).
Proof.
  intros [Hg0 _] [He0 _] H0 H1. unfold SNRByDep_indic. cbn [np_shape].
  rewrite <- H0, <- H1, !Nat.eqb_refl. cbn [py_assert bind].
  rewrite H0. apply (mapM_rows2 SignaltoNoiseRatio gt est); congruence.
Qed.

(** on arrays of one shape whose rows are not empty, every row has a value *)
Lemma ByDep_returns (gt est : ndarray2) :
  wf2 gt -> wf2 est -> shape0 gt = shape0 est -> shape1 gt = shape1 est ->
  shape0 est = 0%nat \/ (1 <= shape1 est)%nat ->
  exists vs, SNRByDep_indic gt est = Ok vs.
Proof.
  intros Hg He H0 H1 Hne. rewrite ByDep_rows by assumption.
  apply mapM_total. apply Forall_forall. intros [g e] Hin.
  destruct Hg as [Hg0 Hg1], He as [He0 He1].
  pose proof (in_combine_l _ _ _ _ Hin) as Hgin.
  pose proof (in_combine_r _ _ _ _ Hin) as Hein.
  rewrite Forall_forall in Hg1, He1.
  specialize (Hg1 g Hgin). specialize (He1 e Hein). cbn [fst snd].
  destruct Hne as [Hz|Hpos].
  - rewrite Hz in He0. apply length_zero_iff_nil in He0.
    rewrite He0 in Hein. destruct Hein.
  - apply SNR_returns; lia.
Qed.

(** C5, as amended: for two 2D arrays of one shape whose rows are not empty
    (or which have no row), [SNRByDep_indic] returns one value per row, the
    value at row [d] being [SignaltoNoiseRatio] of the two rows [d]. *)
Theorem SNRByDep_indic_rowwise (groundTruth estimation : ndarray2) :
  wf2 groundTruth -> wf2 estimation ->
  shape0 groundTruth = shape0 estimation ->
  shape1 groundTruth = shape1 estimation ->
  shape0 estimation = 0%nat \/ (1 <= shape1 estimation)%nat ->
  exists indicators : ndarray,
    SNRByDep_indic groundTruth estimation = Ok indicators /\
    length indicators = shape0 estimation /\
    forall d g e,
      nth_error (rows groundTruth) d = Some g ->
      nth_error (rows estimation) d = Some e ->
      exists v, nth_error indicators d = Some v /\ SignaltoNoiseRatio g e = Ok v.
Proof.
  intros Hg He H0 H1 Hne.
  destruct (ByDep_returns _ _ Hg He H0 H1 Hne) as [vs Hvs].
  exists vs. split; [exact Hvs|].
  rewrite ByDep_rows in Hvs by assumption. apply mapM_Ok in Hvs.
  destruct Hg as [Hg0 _], He as [He0 _]. split.
  - rewrite <- (Forall2_length Hvs), length_combine. lia.
  - intros d g e Hgd Hed.
    pose proof (nth_error_combine _ _ _ _ _ Hgd Hed) as Hd.
    destruct (Forall2_nth_error _ _ _ _ _ Hvs Hd) as [v [Hv Hsnr]].
    now exists v.
Qed.

Lemma SNRByDep_indic_rowwise_witness :
  exists indicators : ndarray,
    SNRByDep_indic (mk_ndarray2 2 3 [series [1; 2; 3]; series [4; 5; 6]])
                   (mk_ndarray2 2 3 [series [1; 2; 3]; series [4; 5; 5]])
    = Ok indicators /\
    length indicators = 2%nat /\
    forall d g e,
      nth_error [series [1; 2; 3]; series [4; 5; 6]] d = Some g ->
      nth_error [series [1; 2; 3]; series [4; 5; 5]] d = Some e ->
      exists v, nth_error indicators d = Some v /\ SignaltoNoiseRatio g e = Ok v.
Proof.
  apply (SNRByDep_indic_rowwise
           (mk_ndarray2 2 3 [series [1; 2; 3]; series [4; 5; 6]])
           (mk_ndarray2 2 3 [series [1; 2; 3]; series [4; 5; 5]])).
  - split; [reflexivity | repeat constructor].
  - split; [reflexivity | repeat constructor].
  - reflexivity.
  - reflexivity.
  - right; simpl; lia.
Defined.

(** C5, as stated, fails: two arrays of shape (1, 0), one row and no
    column, have equal row counts and equal row lengths, and
    [SNRByDep_indic] raises [IndexError] on them: no value is returned. *)
Lemma SNRByDep_indic_empty_rows :
  wf2 (mk_ndarray2 1 0 [[]]) /\
  SNRByDep_indic (mk_ndarray2 1 0 [[]]) (mk_ndarray2 1 0 [[]]) = Raise IndexError.
Proof.
  split; [split; [reflexivity | repeat constructor] | reflexivity].
Qed.

Lemma Mean_of_ByDep (gt est : ndarray2) (vs : ndarray) :
  wf2 gt -> wf2 est -> shape0 gt = shape0 est -> shape1 gt = shape1 est ->
  (1 <= shape0 est)%nat ->
  SNRByDep_indic gt est = Ok vs ->
  SNRMean_indic gt est = Ok (fmul (Fin (1 / IZR (Z.of_nat (shape0 est)))) (np_sum vs)).
Proof.
  intros Hg He H0 H1 Hpos Hvs.
  assert (Hlen : length vs = shape0 est).
  { rewrite ByDep_rows in Hvs by assumption. apply mapM_Ok in Hvs.
    destruct Hg as [Hg0 _], He as [He0 _].
    rewrite <- (Forall2_length Hvs), length_combine. lia. }
  unfold SNRMean_indic. cbn [np_shape].
  rewrite <- H0, <- H1, !Nat.eqb_refl. cbn [py_assert bind].
  rewrite Hvs. cbn [bind]. rewrite Hlen, H0, Nat.eqb_refl. cbn [py_assert bind].
  rewrite py_inv_pos by exact Hpos. reflexivity.
Qed.

(** C6, as amended: for two 2D arrays of one shape with [nbUnits >= 1] rows,
    none of them empty, [SNRMean_indic] returns [1 / nbUnits] times the sum of
    the per-unit values that [SNRByDep_indic] returns on the same inputs,
    which is their arithmetic mean. *)
Theorem SNRMean_indic_mean (groundTruth estimation : ndarray2) :
  wf2 groundTruth -> wf2 estimation ->
  shape0 groundTruth = shape0 estimation ->
  shape1 groundTruth = shape1 estimation ->
  (1 <= shape0 estimation)%nat ->
  (1 <= shape1 estimation)%nat ->
  exists indicatorsByDep : ndarray,
    SNRByDep_indic groundTruth estimation = Ok indicatorsByDep /\
    SNRMean_indic groundTruth estimation
    = Ok (fmul (Fin (1 / IZR (Z.of_nat (shape0 estimation)))) (np_sum indicatorsByDep)) /\
    fmul (Fin (1 / IZR (Z.of_nat (shape0 estimation)))) (np_sum indicatorsByDep)
    = fdiv (np_sum indicatorsByDep) (of_nat (shape0 estimation)).
Proof.
  intros Hg He H0 H1 Hunits Hdays.
  destruct (ByDep_returns _ _ Hg He H0 H1 (or_intror Hdays)) as [vs Hvs].
  exists vs. split; [exact Hvs|]. split.
  - now apply Mean_of_ByDep.
  - now apply fmul_inv_fdiv.
Qed.

Lemma SNRMean_indic_mean_witness :
  exists indicatorsByDep : ndarray,
    SNRByDep_indic (mk_ndarray2 2 3 [series [1; 2; 3]; series [4; 5; 6]])
                   (mk_ndarray2 2 3 [series [1; 2; 4]; series [4; 5; 5]])
    = Ok indicatorsByDep /\
    SNRMean_indic (mk_ndarray2 2 3 [series [1; 2; 3]; series [4; 5; 6]])
                  (mk_ndarray2 2 3 [series [1; 2; 4]; series [4; 5; 5]])
    = Ok (fmul (Fin (1 / IZR (Z.of_nat 2))) (np_sum indicatorsByDep)) /\
    fmul (Fin (1 / IZR (Z.of_nat 2))) (np_sum indicatorsByDep)
    = fdiv (np_sum indicatorsByDep) (of_nat 2).
Proof.
  apply (SNRMean_indic_mean
           (mk_ndarray2 2 3 [series [1; 2; 3]; series [4; 5; 6]])
           (mk_ndarray2 2 3 [series [1; 2; 4]; series [4; 5; 5]])).
  - split; [reflexivity | repeat constructor].
  - split; [reflexivity | repeat constructor].
  - reflexivity.
  - reflexivity.
  - simpl; lia.
  - simpl; lia.
Defined.

(** C6, as stated, fails: on two arrays of shape (0, 3), no unit,
    [SNRByDep_indic] returns the empty sequence and [SNRMean_indic] raises
    [ZeroDivisionError] at [1 / nbDeps]; on two arrays of shape (1, 0) it
    raises [IndexError].  Neither returns a mean. *)
Lemma SNRMean_indic_no_unit :
  wf2 (mk_ndarray2 0 3 []) /\
  SNRByDep_indic (mk_ndarray2 0 3 []) (mk_ndarray2 0 3 []) = Ok [] /\
  SNRMean_indic (mk_ndarray2 0 3 []) (mk_ndarray2 0 3 []) = Raise ZeroDivisionError /\
  SNRMean_indic (mk_ndarray2 1 0 [[]]) (mk_ndarray2 1 0 [[]]) = Raise IndexError.
Proof.
  repeat split; constructor.
Qed.

End SNRAggregates.

(** ** Properties of adaptiveDaysLocator *)

Module LocatorProps.

Import Spec FormattingFigures.
Local Open Scope Z_scope.

Lemma normalised_in (dom : Z) :
  (if existsb (Z.eqb dom) [29; 30; 31] then 1 else dom) = normalised dom.
Proof.
  unfold normalised; cbn [existsb].
  destruct (Z.eqb_spec dom 29), (Z.eqb_spec dom 30), (Z.eqb_spec dom 31),
    (Z.leb_spec 29 dom), (Z.leb_spec dom 31); cbn [orb andb]; lia.
Qed.

Lemma date_range_length (start : Z) (n : nat) : length (date_range start n) = n.
Proof. unfold date_range. now rewrite length_map, length_seq. Qed.

Lemma date_range_head (start : Z) (n : nat) :
  (1 <= n)%nat -> index (date_range start n) 0 = Ok (start + 0).
Proof. intros H. destruct n; [lia | reflexivity]. Qed.

Lemma date_range_hd (start : Z) (n : nat) :
  (1 <= n)%nat -> hd 0 (date_range start n) = start.
Proof. intros H. destruct n; [lia | cbn; lia]. Qed.

(** the two ends of [datetime_range] are the first and the last date a
    [datetime] represents *)
Lemma datetime_range_ends :
  num2date (-719162) = mk_datetime 1 1 1 /\
  num2date 2932896 = mk_datetime 9999 12 31.
Proof. split; reflexivity. Qed.

Lemma new_DayLocator_pos (interval : Z) :
  1 <= interval -> new_DayLocator interval = Ok (DayLocator interval).
Proof.
  intros H. unfold new_DayLocator.
  destruct (Z.ltb_spec interval 1); [lia | reflexivity].
Qed.

Lemma new_DayLocator_nonpos (interval : Z) :
  interval < 1 -> new_DayLocator interval = Raise ValueError.
Proof.
  intros H. unfold new_DayLocator.
  destruct (Z.ltb_spec interval 1); [reflexivity | lia].
Qed.

(** the daily branch returns only with an interval of at least 1 *)
Lemma daily_inv (interval : Z) (fmt : Formatter) (r : Locator * Formatter) :
  (locator <- new_DayLocator interval ;; Ok (locator, fmt)) = Ok r ->
  1 <= interval /\ r = (DayLocator interval, fmt).
Proof.
  unfold new_DayLocator. destruct (Z.ltb_spec interval 1) as [Hlt|Hge]; cbn [bind].
  - discriminate.
  - intros Hr; injection Hr as <-. split; [lia | reflexivity].
Qed.

(** the branches of the function on a sequence that has a first date *)
Lemma locator_branches (formattedDates : list Z) (d0 : Z) :
  index formattedDates 0 = Ok d0 ->
  adaptiveDaysLocator formattedDates
  = let days := Z.of_nat (length formattedDates) in
    let firstDay := normalised (day (num2date d0)) in
    if days <? 35 then
      locator <- new_DayLocator (int_round_div days 5) ;;
      Ok (locator, DateFormatter "%d~%b~%Y")
    else if days <? 111 then
      Ok (WeekdayLocator (int_round_div days 35) (int_ceil_div firstDay 7),
          DateFormatter "%d~%b~%Y")
    else if days <? 550 then
      Ok (MonthLocator (int_round_div days 140) firstDay, DateFormatter "%b~%Y")
    else Ok (YearLocator, DateFormatter "%Y").
Proof.
  intros Hd0. unfold adaptiveDaysLocator. rewrite Hd0. cbn [bind].
  rewrite normalised_in. cbv zeta.
  destruct (Z.ltb_spec (Z.of_nat (length formattedDates)) 35); [reflexivity|].
  replace (34 <? Z.of_nat (length formattedDates)) with true
    by (symmetry; apply Z.ltb_lt; lia).
  cbn [andb].
  destruct (Z.ltb_spec (Z.of_nat (length formattedDates)) 111); [reflexivity|].
  replace (110 <? Z.of_nat (length formattedDates)) with true
    by (symmetry; apply Z.ltb_lt; lia).
  reflexivity.
Qed.

Lemma index_head_nonempty {A : Type} (xs : list A) (d : A) :
  xs <> [] -> index xs 0 = Ok (hd d xs).
Proof. destruct xs; [congruence | reflexivity]. Qed.

(** the daily interval [round (days / 5)] is positive from 3 days on *)
Lemma int_round_div_5_pos (days : Z) :
  0 <= days -> (1 <= int_round_div days 5 <-> 3 <= days).
Proof.
  intros Hd. unfold int_round_div.
  pose proof (Z.div_mod days 5 ltac:(lia)) as Hdm.
  pose proof (Z.mod_pos_bound days 5 ltac:(lia)) as Hm.
  destruct (Z.ltb_spec (2 * (days mod 5)) 5);
    [|destruct (Z.ltb_spec 5 (2 * (days mod 5)));
      [|destruct (Z.even (days / 5))]]; lia.
Qed.

(** from three dates on, the code's result is a mode of the table, with the
    normalised anchor *)
Lemma locator_mode (formattedDates : list Z) (d0 : Z) :
  index formattedDates 0 = Ok d0 ->
  (3 <= length formattedDates)%nat ->
  exists r, adaptiveDaysLocator formattedDates = Ok r /\
    tick_mode_normalised (Z.of_nat (length formattedDates)) (day (num2date d0)) r.
Proof.
  intros Hd0 Hlen. rewrite (locator_branches _ _ Hd0). cbv zeta.
  destruct (Z.ltb_spec (Z.of_nat (length formattedDates)) 35).
  { rewrite new_DayLocator_pos by (apply int_round_div_5_pos; lia).
    eexists; split; [reflexivity|]. now apply mode_daily. }
  destruct (Z.ltb_spec (Z.of_nat (length formattedDates)) 111).
  { eexists; split; [reflexivity|]. apply mode_weekly; lia. }
  destruct (Z.ltb_spec (Z.of_nat (length formattedDates)) 550).
  { eexists; split; [reflexivity|]. apply mode_monthly; lia. }
  eexists; split; [reflexivity|]. now apply mode_yearly.
Qed.

(** on one or two dates the daily branch asks for [DayLocator(interval=0)] *)
Lemma locator_short (formattedDates : list Z) :
  length formattedDates = 1%nat \/ length formattedDates = 2%nat ->
  adaptiveDaysLocator formattedDates
  = (locator <- new_DayLocator 0 ;; Ok (locator, DateFormatter "%d~%b~%Y")).
Proof.
  intros Hlen.
  assert (Hne : formattedDates <> [])
    by (destruct formattedDates; simpl in Hlen; [lia | discriminate]).
  rewrite (locator_branches _ _ (index_head_nonempty formattedDates 0 Hne)).
  destruct Hlen as [-> | ->]; reflexivity.
Qed.

(** the four modes exclude one another *)
Lemma tick_mode_unique (anchor : Z -> Z) (days dom : Z) (r r' : Locator * Formatter) :
  tick_mode anchor days dom r -> tick_mode anchor days dom r' -> r = r'.
Proof.
  intros H H'. inversion H; inversion H'; subst; try reflexivity; lia.
Qed.

Lemma locator_date_range (start : Z) (n : nat) :
  (3 <= n)%nat ->
  exists r, adaptiveDaysLocator (date_range start n) = Ok r /\
    tick_mode_normalised (Z.of_nat n) (day (num2date start)) r.
Proof.
  intros Hn. pose proof (date_range_head start n ltac:(lia)) as Hhd.
  rewrite Z.add_0_r in Hhd.
  destruct (locator_mode _ _ Hhd) as [r [Hr Hmode]].
  - rewrite date_range_length. exact Hn.
  - rewrite date_range_length in Hmode. now exists r.
Qed.

(** C2, as amended: on a sequence of at least three dates, of length
    [days], the function returns one of the four modes of the table, and no
    other mode fits: daily ticks every [round (days / 5)] with DD Mon YYYY
    labels when [days < 35]; weekly ticks every [round (days / 35)] anchored
    at [ceil (firstDay / 7)] with DD Mon YYYY labels when
    [35 <= days <= 110]; monthly ticks every [round (days / 140)] anchored at
    [firstDay] with Mon YYYY labels when [111 <= days <= 549]; yearly ticks
    with YYYY labels when [days >= 550]; [firstDay] is the first date's day
    of month, 29 to 31 counting as 1, in the weekly and in the monthly mode.
    Ten days give the daily mode with interval 2, four hundred the monthly
    mode with interval 3.  The dates are those a [datetime] represents.  On
    one or two dates the function raises [ValueError], on none
    [IndexError]. *)
Theorem adaptiveDaysLocator_modes :
  (forall formattedDates : list Z,
     (3 <= length formattedDates)%nat ->
     datetime_range (hd 0 formattedDates) ->
     exists r,
       adaptiveDaysLocator formattedDates = Ok r /\
       tick_mode_normalised (Z.of_nat (length formattedDates))
         (day (num2date (hd 0 formattedDates))) r /\
       forall r',
         tick_mode_normalised (Z.of_nat (length formattedDates))
           (day (num2date (hd 0 formattedDates))) r' -> r' = r) /\
  (forall start : Z,
     datetime_range start ->
     adaptiveDaysLocator (date_range start 10)
     = Ok (DayLocator 2, DateFormatter "%d~%b~%Y")) /\
  (forall start : Z,
     datetime_range start ->
     adaptiveDaysLocator (date_range start 400)
     = Ok (MonthLocator 3 (normalised (day (num2date start))),
           DateFormatter "%b~%Y")) /\
  (forall formattedDates : list Z,
     length formattedDates = 1%nat \/ length formattedDates = 2%nat ->
     adaptiveDaysLocator formattedDates = Raise ValueError) /\
  adaptiveDaysLocator [] = Raise IndexError.
Proof.
  split; [|split; [|split; [|split]]].
  - intros ds Hlen _.
    assert (Hne : ds <> []) by (destruct ds; [simpl in Hlen; lia | discriminate]).
    destruct (locator_mode ds (hd 0 ds) (index_head_nonempty ds 0 Hne) Hlen)
      as [r [Hr Hmode]].
    exists r. split; [exact Hr|]. split; [exact Hmode|].
    intros r' Hr'. exact (tick_mode_unique _ _ _ _ _ Hr' Hmode).
  - intros start _.
    destruct (locator_date_range start 10 ltac:(lia)) as [r [Hr Hmode]].
    rewrite Hr. f_equal.
    apply (tick_mode_unique _ _ _ _ _ Hmode). apply mode_daily. lia.
  - intros start _.
    destruct (locator_date_range start 400 ltac:(lia)) as [r [Hr Hmode]].
    rewrite Hr. f_equal.
    apply (tick_mode_unique _ _ _ _ _ Hmode).
    apply (mode_monthly normalised 400). lia.
  - intros ds Hlen. rewrite (locator_short _ Hlen). reflexivity.
  - reflexivity.
Qed.

Lemma adaptiveDaysLocator_modes_witness :
  (exists r,
     adaptiveDaysLocator [18291; 18292; 18293] = Ok r /\
     tick_mode_normalised 3 (day (num2date 18291)) r /\
     forall r', tick_mode_normalised 3 (day (num2date 18291)) r' -> r' = r) /\
  adaptiveDaysLocator (date_range 18291 10)
  = Ok (DayLocator 2, DateFormatter "%d~%b~%Y") /\
  adaptiveDaysLocator (date_range 18291 400)
  = Ok (MonthLocator 3 (normalised (day (num2date 18291))), DateFormatter "%b~%Y") /\
  adaptiveDaysLocator [18291; 18292] = Raise ValueError.
Proof.
  split; [|split; [|split]].
  - apply (proj1 adaptiveDaysLocator_modes [18291; 18292; 18293]).
    + simpl; lia.
    + unfold datetime_range; simpl; lia.
  - apply (proj1 (proj2 adaptiveDaysLocator_modes) 18291).
    unfold datetime_range; lia.
  - apply (proj1 (proj2 (proj2 adaptiveDaysLocator_modes)) 18291).
    unfold datetime_range; lia.
  - apply (proj1 (proj2 (proj2 (proj2 adaptiveDaysLocator_modes))) [18291; 18292]).
    right; reflexivity.
Defined.

(** C2, as stated, fails: for the 400 days from 2020-01-30 (day number
    18291) the monthly ticks are anchored at day 1, not at the first date's
    day of month, 30; and not every sequence gets a mode: on one or on two
    dates the daily mode's interval is 0, which [DayLocator] refuses with
    [ValueError], and on the empty sequence the function raises
    [IndexError]. *)
Lemma adaptiveDaysLocator_monthly_anchor :
  num2date 18291 = mk_datetime 2020 1 30 /\
  adaptiveDaysLocator (date_range 18291 400)
  = Ok (MonthLocator 3 1, DateFormatter "%b~%Y") /\
  ~ tick_mode_claimed 400 30 (MonthLocator 3 1, DateFormatter "%b~%Y") /\
  adaptiveDaysLocator [18291] = Raise ValueError /\
  adaptiveDaysLocator [18291; 18292] = Raise ValueError /\
  adaptiveDaysLocator [] = Raise IndexError.
Proof.
  split; [reflexivity|]. split; [vm_compute; reflexivity|].
  split; [|split; [reflexivity|split; reflexivity]].
  intros H. inversion H.
Qed.



End LocatorProps.

(** ** Properties of adaptiveYLimit *)

Module YLimitProps.

Import NumPy Spec FormattingFigures NumPyFacts SNRProps.
Local Open Scope R_scope.

Lemma fmax_fin (a b : R) : fmax (Fin a) (Fin b) = Fin (Rmax a b).
Proof.
  unfold fmax, fgt, Rltb, Rmax.
  destruct (Rlt_dec a b), (Rle_dec a b); try reflexivity; try lra.
  f_equal; lra.
Qed.

Lemma fold_fmax_fin (rs : list R) (x : R) :
  fold_left fmax (series rs) (Fin x) = Fin (fold_left Rmax rs x).
Proof.
  revert x; induction rs as [|r rs IH]; intros x; [reflexivity|].
  cbn [series map fold_left]. rewrite fmax_fin. apply IH.
Qed.

Lemma fold_Rmax_ge (rs : list R) (x : R) : x <= fold_left Rmax rs x.
Proof.
  revert x; induction rs as [|r rs IH]; intros x; simpl; [lra|].
  eapply Rle_trans; [apply Rmax_l | apply IH].
Qed.

Lemma fold_Rmax_In (rs : list R) (x y : R) :
  In y (x :: rs) -> y <= fold_left Rmax rs x.
Proof.
  revert x; induction rs as [|r rs IH]; intros x Hin.
  - destruct Hin as [<- | []]. simpl; lra.
  - cbn [fold_left]. destruct Hin as [<- | [<- | Hin]].
    + eapply Rle_trans; [apply Rmax_l | apply fold_Rmax_ge].
    + eapply Rle_trans; [apply Rmax_r | apply fold_Rmax_ge].
    + apply IH. now right.
Qed.

Lemma fold_Rmax_le (rs : list R) (x m : R) :
  (forall y, In y (x :: rs) -> y <= m) -> fold_left Rmax rs x <= m.
Proof.
  revert x; induction rs as [|r rs IH]; intros x Hub.
  - apply Hub; now left.
  - cbn [fold_left]. apply IH. intros y [<- | Hin].
    + apply Rmax_lub; apply Hub; [now left | now right; left].
    + apply Hub. now right; right.
Qed.

(** [np.max] of a series is its greatest value *)
Lemma np_max_series (rs : list R) (m : R) :
  In m rs -> (forall x, In x rs -> x <= m) -> np_max (series rs) = Ok (Fin m).
Proof.
  intros Hin Hub. destruct rs as [|x rs]; [destruct Hin|].
  cbn [series map np_max]. fold (series rs). rewrite fold_fmax_fin.
  do 2 f_equal. apply Rle_antisym.
  - now apply fold_Rmax_le.
  - now apply fold_Rmax_In.
Qed.

Lemma Rfloor_eq (x : R) (z : Z) : IZR z <= x < IZR z + 1 -> Rfloor x = z.
Proof. intros H. unfold Rfloor. symmetry. apply Int_part_spec. lra. Qed.

Lemma Rceil_eq (x : R) (z : Z) : IZR z - 1 < x <= IZR z -> Rceil x = z.
Proof.
  intros H. unfold Rceil.
  rewrite <- (Int_part_spec (- x) (- z)); [lia|]. rewrite opp_IZR. lra.
Qed.

(** the specification's example: the limit for [5, 42, 97] is 100; the
    maximum is 97, the quotient of the logarithms lies between 1 and 2, the
    unit is 10, and [ceil (9.7) * 10] is 100 *)
Lemma adaptiveYLimit_example : adaptiveYLimit (series [5; 42; 97]) = Ok (Fin 100).
Proof.
  unfold adaptiveYLimit.
  rewrite (np_max_series [5; 42; 97] 97);
    [|simpl; auto | intros x [<- | [<- | [<- | []]]]; lra].
  cbn [bind].
  pose proof ln10_pos as H10.
  assert (Hlog : flog (Fin 97) = Fin (ln 97)) by (simpl; now rewrite Rltb_true by lra).
  assert (Hlog10 : flog (of_int 10) = Fin (ln 10))
    by (unfold of_int; simpl; rewrite Rltb_true by lra; reflexivity).
  rewrite Hlog, Hlog10, fdiv_fin by lra.
  assert (Hfloor : Rfloor (ln 97 / ln 10) = 1%Z).
  { apply Rfloor_eq.
    assert (H1 : ln 10 < ln 97) by (apply ln_increasing; lra).
    assert (H2 : ln 97 < ln (10 * 10)) by (apply ln_increasing; lra).
    rewrite ln_mult in H2 by lra.
    split.
    - apply Rmult_le_reg_r with (ln 10); [exact H10|].
      replace (ln 97 / ln 10 * ln 10) with (ln 97) by (field; lra). lra.
    - apply Rmult_lt_reg_r with (ln 10); [exact H10|].
      replace (ln 97 / ln 10 * ln 10) with (ln 97) by (field; lra). lra. }
  cbn [ffloor]. rewrite Hfloor. unfold of_int. cbn [pow10].
  rewrite <- powerRZ_Rpower by lra.
  replace (powerRZ 10 1) with 10 by (simpl; lra).
  rewrite fdiv_fin by lra. cbn [fceil].
  rewrite (Rceil_eq (97 / 10) 10) by lra.
  unfold of_int. cbn [fmul]. do 2 f_equal. lra.
Qed.

End YLimitProps.

(** ** Further properties of SNR.py: outcomes and the outlier branch *)

Module SNROutcomes.

Import NumPy Spec SNR NumPyFacts SNRFacts SNRProps LoopFacts SNRAggregates.
Local Open Scope R_scope.

(** Every outcome of [SignaltoNoiseRatio], on arrays of any floats: a value
    exactly on two non-empty arrays of one length, [IndexError] exactly on two
    empty arrays, and otherwise the [AssertionError] of the length check. *)
Theorem SignaltoNoiseRatio_outcomes (groundTruth estimation : ndarray) :
  ((exists v, SignaltoNoiseRatio groundTruth estimation = Ok v)
   <-> length groundTruth = length estimation /\ (1 <= length groundTruth)%nat) /\
  (SignaltoNoiseRatio groundTruth estimation = Raise IndexError
   <-> groundTruth = [] /\ estimation = []) /\
  (forall e, SignaltoNoiseRatio groundTruth estimation = Raise e ->
             e = AssertionError \/ e = IndexError).
Proof.
  destruct (Nat.eq_dec (length groundTruth) (length estimation)) as [Hlen|Hlen].
  - destruct groundTruth as [|g gt], estimation as [|e0 est];
      simpl in Hlen; try discriminate.
    + assert (H : SignaltoNoiseRatio [] [] = Raise IndexError) by reflexivity.
      rewrite H. split; [split|split; [split|]].
      * intros [v Hv]; discriminate.
      * intros [_ Hn]; simpl in Hn; lia.
      * now split.
      * reflexivity.
      * intros e He. injection He as <-. now right.
    + injection Hlen as Hlen.
      destruct (SNR_returns (g :: gt) (e0 :: est)) as [v Hv];
        [simpl; congruence | simpl; lia |].
      rewrite Hv. split; [split|split; [split|]].
      * intros _. split; simpl; [congruence | lia].
      * intros _. now exists v.
      * discriminate.
      * intros [H _]; discriminate.
      * discriminate.
  - rewrite (SNR_mismatch _ _ Hlen). split; [split|split; [split|]].
    + intros [v Hv]; discriminate.
    + intros [H _]; contradiction.
    + discriminate.
    + intros [-> ->]. now contradiction Hlen.
    + intros e He. injection He as <-. now left.
Qed.

End SNROutcomes.

Module SNRBranch.

Import NumPy SNR NumPyFacts SNRProps.
Local Open Scope R_scope.

(** Once the outlier test fires, [estimation[0]] no longer matters.  On
    arrays of any floats, of one length: when the test
    [(estimation[0] - groundTruth[0]) / errorMean > 100000] holds, the value
    returned is [10 * log10] of the signal power over the squared error of
    the indices from 1 on, and two estimations that agree from index 1 on
    and both pass the test have the same SNR. *)
Theorem SignaltoNoiseRatio_outlier_branch
    (g0 e0 e0' : float64) (groundTruth estimation : ndarray) :
  length groundTruth = length estimation ->
  fgt (fdiv (fsub e0 g0)
         (fdiv (np_sum (np_abs (np_sub estimation groundTruth)))
               (of_int (Z.of_nat (length (g0 :: groundTruth)) - 1))))
      (Fin 100000) = true ->
  fgt (fdiv (fsub e0' g0)
         (fdiv (np_sum (np_abs (np_sub estimation groundTruth)))
               (of_int (Z.of_nat (length (g0 :: groundTruth)) - 1))))
      (Fin 100000) = true ->
  SignaltoNoiseRatio (g0 :: groundTruth) (e0 :: estimation)
  = Ok (fmul (Fin 10)
          (flog10 (fdiv (np_sum (np_pow (np_abs (g0 :: groundTruth)) 2))
                        (np_sum (np_pow (np_abs (np_sub estimation groundTruth)) 2))))) /\
  SignaltoNoiseRatio (g0 :: groundTruth) (e0' :: estimation)
  = SignaltoNoiseRatio (g0 :: groundTruth) (e0 :: estimation).
Proof.
  intros Hlen H1 H2.
  assert (Hbranch : forall e,
            fgt (fdiv (fsub e g0)
                   (fdiv (np_sum (np_abs (np_sub estimation groundTruth)))
                         (of_int (Z.of_nat (length (g0 :: groundTruth)) - 1))))
                (Fin 100000) = true ->
            SignaltoNoiseRatio (g0 :: groundTruth) (e :: estimation)
            = Ok (fmul (Fin 10)
                    (flog10 (fdiv (np_sum (np_pow (np_abs (g0 :: groundTruth)) 2))
                                  (np_sum (np_pow (np_abs (np_sub estimation groundTruth)) 2)))))).
  { intros e He. unfold SignaltoNoiseRatio.
    cbn [length]. rewrite Hlen, Nat.eqb_refl.
    cbn [py_assert bind index nth_error from1 tl].
    cbn [length] in He. rewrite Hlen in He. rewrite He. reflexivity. }
  split; [now apply Hbranch|]. now rewrite !Hbranch.
Qed.

Lemma SignaltoNoiseRatio_outlier_branch_witness :
  SignaltoNoiseRatio [Fin 0; Fin 1] [Fin 1000000; Fin 2]
  = Ok (fmul (Fin 10)
          (flog10 (fdiv (np_sum (np_pow (np_abs [Fin 0; Fin 1]) 2))
                        (np_sum (np_pow (np_abs (np_sub [Fin 2] [Fin 1])) 2))))) /\
  SignaltoNoiseRatio [Fin 0; Fin 1] [Fin 3000000; Fin 2]
  = SignaltoNoiseRatio [Fin 0; Fin 1] [Fin 1000000; Fin 2].
Proof.
  assert (Htest : forall e, 100000 < e ->
            fgt (fdiv (fsub (Fin e) (Fin 0))
                   (fdiv (np_sum (np_abs (np_sub [Fin 2] [Fin 1])))
                         (of_int (Z.of_nat (length [Fin 0; Fin 1]) - 1))))
                (Fin 100000) = true).
  { intros e He.
    cbn [np_sub zip_with np_abs map np_sum fold_left fsub fneg fadd fabs length].
    unfold of_int.
    replace (IZR (Z.of_nat 2 - 1)) with 1 by (simpl; lra).
    rewrite (fdiv_fin _ 1) by lra.
    match goal with
    | |- context [Fin (?x / 1)] =>
        replace (x / 1) with 1
          by (rewrite Rabs_pos_eq by lra; lra)
    end.
    rewrite (fdiv_fin _ 1) by lra.
    apply fgt_fin_true. lra. }
  apply (SignaltoNoiseRatio_outlier_branch (Fin 0) (Fin 1000000) (Fin 3000000)
           [Fin 1] [Fin 2]).
  - reflexivity.
  - apply Htest; lra.
  - apply Htest; lra.
Defined.

End SNRBranch.

(** ** Further properties of the aggregates *)

Module AggregateOutcomes.

Import NumPy Spec Quantities SNR NumPyFacts SNRFacts SNRProps LoopFacts SNRAggregates.
Local Open Scope R_scope.

Lemma mapM_ext_in {A B : Type} (f g : A -> result B) (xs : list A) :
  (forall x, In x xs -> f x = g x) -> mapM f xs = mapM g xs.
Proof.
  induction xs as [|x xs IH]; intros H; [reflexivity|].
  cbn [mapM]. rewrite (H x) by now left.
  rewrite IH; [reflexivity|]. intros y Hy. apply H. now right.
Qed.

Lemma mapM_app {A B : Type} (f : A -> result B) (xs ys : list A) :
  mapM f (xs ++ ys)
  = (a <- mapM f xs ;; b <- mapM f ys ;; Ok (a ++ b)).
Proof.
  induction xs as [|x xs IH]; cbn [app mapM bind].
  - destruct (mapM f ys); reflexivity.
  - destruct (f x) as [y|e]; cbn [bind]; [|reflexivity].
    rewrite IH. destruct (mapM f xs) as [a|e]; cbn [bind]; [|reflexivity].
    destruct (mapM f ys); reflexivity.
Qed.

(** a loop raises what its body raised on some element *)
Lemma mapM_Raise {A B : Type} (f : A -> result B) (xs : list A) (e : exn) :
  mapM f xs = Raise e -> exists x, In x xs /\ f x = Raise e.
Proof.
  induction xs as [|x xs IH]; cbn [mapM]; [discriminate|].
  destruct (f x) as [y|e'] eqn:Hfx; cbn [bind].
  - destruct (mapM f xs) as [ys|e'']; cbn [bind]; [discriminate|].
    intros H; injection H as ->.
    destruct (IH eq_refl) as [x' [Hin Hx']]. exists x'. split; [now right | exact Hx'].
  - intros H; injection H as ->. exists x. split; [now left | exact Hfx].
Qed.

Lemma combine_app_eq {A B : Type} (a a' : list A) (b b' : list B) :
  length a = length b -> combine (a ++ a') (b ++ b') = combine a b ++ combine a' b'.
Proof.
  revert b; induction a as [|x a IH]; intros [|y b] H; simpl in H; try discriminate.
  - reflexivity.
  - injection H as H. cbn [app combine]. now rewrite IH.
Qed.

Lemma SNR_assertion_inv (gt est : ndarray) :
  SignaltoNoiseRatio gt est = Raise AssertionError -> length gt <> length est.
Proof.
  intros Hraise Hlen. unfold SignaltoNoiseRatio in Hraise.
  rewrite Hlen, Nat.eqb_refl in Hraise. cbn [py_assert bind] in Hraise.
  destruct est as [|e est]; [discriminate|].
  destruct gt as [|g gt]; discriminate.
Qed.

(** the Monte-Carlo aggregate on a well-formed array of draws *)
Lemma MC_unfold (gt : ndarray) (ests : ndarray2) :
  wf2 ests ->
  SignaltoNoiseRatioMC gt ests
  = (py_assert (Nat.eqb (shape1 ests) (length gt)) ;;;
     SNREstim <- mapM (SignaltoNoiseRatio gt) (rows ests) ;;
     inv <- py_inv (shape0 ests) ;;
     Ok (fmul inv (np_sum SNREstim),
         fmul (fdiv (Fin (196 / 100)) (fsqrt (of_nat (shape0 ests)))) (np_std SNREstim))).
Proof.
  intros [H0 _]. unfold SignaltoNoiseRatioMC. cbn [np_shape].
  now rewrite (mapM_rows (SignaltoNoiseRatio gt) ests H0).
Qed.

(** Every outcome of [SignaltoNoiseRatioMC] on a well-formed array of draws:
    [AssertionError] when the draws' length is not the ground truth's;
    otherwise [ZeroDivisionError] when there is no draw, [IndexError] when the
    series are empty, and a pair of values in every other case. *)
Theorem SignaltoNoiseRatioMC_outcomes (groundTruth : ndarray) (estimations : ndarray2) :
  wf2 estimations ->
  (shape1 estimations <> length groundTruth ->
   SignaltoNoiseRatioMC groundTruth estimations = Raise AssertionError) /\
  (shape1 estimations = length groundTruth -> shape0 estimations = 0%nat ->
   SignaltoNoiseRatioMC groundTruth estimations = Raise ZeroDivisionError) /\
  (shape1 estimations = length groundTruth -> (1 <= shape0 estimations)%nat ->
   length groundTruth = 0%nat ->
   SignaltoNoiseRatioMC groundTruth estimations = Raise IndexError) /\
  (shape1 estimations = length groundTruth -> (1 <= shape0 estimations)%nat ->
   (1 <= length groundTruth)%nat ->
   exists meanSNR errorSNR,
     SignaltoNoiseRatioMC groundTruth estimations = Ok (meanSNR, errorSNR)).
Proof.
  intros Hwf. rewrite (MC_unfold _ _ Hwf). destruct Hwf as [H0 H1].
  split; [|split; [|split]].
  - intros Hne. apply Nat.eqb_neq in Hne. now rewrite Hne.
  - intros Heq Hz. rewrite Heq, Nat.eqb_refl. cbn [py_assert bind].
    rewrite Hz in H0. apply length_zero_iff_nil in H0. rewrite H0, Hz. reflexivity.
  - intros Heq HM HN. rewrite Heq, Nat.eqb_refl. cbn [py_assert bind].
    destruct (rows estimations) as [|r rs]; [simpl in H0; lia|].
    inversion H1 as [|? ? Hr _]; subst.
    rewrite Heq, HN in Hr. apply length_zero_iff_nil in Hr. subst r.
    apply length_zero_iff_nil in HN. subst groundTruth. reflexivity.
  - intros Heq HM HN. rewrite Heq, Nat.eqb_refl. cbn [py_assert bind].
    destruct (mapM_total (SignaltoNoiseRatio groundTruth) (rows estimations))
      as [vs Hvs].
    { eapply Forall_impl; [|exact H1]. intros r Hr. cbv beta in Hr.
      apply SNR_returns; [congruence | exact HN]. }
    rewrite Hvs. cbn [bind]. rewrite py_inv_pos by exact HM. cbn [bind].
    eexists; eexists; reflexivity.
Qed.

Lemma SignaltoNoiseRatioMC_outcomes_witness :
  (2%nat <> 2%nat ->
   SignaltoNoiseRatioMC (series [1; 1]) (mk_ndarray2 1 2 [series [1; 2]])
   = Raise AssertionError) /\
  (2%nat = 2%nat -> 1%nat = 0%nat ->
   SignaltoNoiseRatioMC (series [1; 1]) (mk_ndarray2 1 2 [series [1; 2]])
   = Raise ZeroDivisionError) /\
  (2%nat = 2%nat -> (1 <= 1)%nat -> 2%nat = 0%nat ->
   SignaltoNoiseRatioMC (series [1; 1]) (mk_ndarray2 1 2 [series [1; 2]])
   = Raise IndexError) /\
  (2%nat = 2%nat -> (1 <= 1)%nat -> (1 <= 2)%nat ->
   exists meanSNR errorSNR,
     SignaltoNoiseRatioMC (series [1; 1]) (mk_ndarray2 1 2 [series [1; 2]])
     = Ok (meanSNR, errorSNR)).
Proof.
  apply (SignaltoNoiseRatioMC_outcomes (series [1; 1]) (mk_ndarray2 1 2 [series [1; 2]])).
  split; [reflexivity | repeat constructor].
Defined.

End AggregateOutcomes.

Module AggregateLaws.

Import NumPy Spec Quantities SNR NumPyFacts SNRFacts SNRProps LoopFacts SNRAggregates AggregateOutcomes.
Local Open Scope R_scope.

Lemma Rsum_repeat (v : R) (n : nat) : Rsum (repeat v n) = INR n * v.
Proof.
  induction n as [|n IH]; [simpl; lra|].
  cbn [repeat Rsum fold_right]. fold (Rsum (repeat v n)).
  rewrite IH, S_INR. lra.
Qed.

Lemma series_repeat (v : R) (n : nat) : series (repeat v n) = repeat (Fin v) n.
Proof. unfold series. apply map_repeat. Qed.

(** the mean of [M >= 1] equal finite values is that value *)
Lemma arith_mean_const (v : R) (M : nat) :
  (1 <= M)%nat -> arith_mean (repeat (Fin v) M) = Fin v.
Proof.
  intros HM. unfold arith_mean.
  rewrite <- series_repeat, np_sum_series, Rsum_repeat, series_length, repeat_length.
  pose proof (IZR_of_nat_pos M HM) as Hpos.
  unfold of_nat, of_int. rewrite fdiv_fin by lra. f_equal.
  rewrite INR_IZR_INZ. field. lra.
Qed.

(** and their population standard deviation is 0 *)
Lemma half_width_const (v : R) (M : nat) :
  (1 <= M)%nat -> half_width (repeat (Fin v) M) = Fin 0.
Proof.
  intros HM. unfold half_width, pop_std.
  rewrite arith_mean_const by exact HM. rewrite map_repeat, repeat_length.
  assert (Hdev : fpow (fsub (Fin v) (Fin v)) 2 = Fin 0).
  { cbn. f_equal. ring. }
  rewrite Hdev. change (Fin 0) with (Fin (0 : R)) at 1.
  rewrite <- series_repeat, np_sum_series, Rsum_repeat, Rmult_0_r.
  pose proof (IZR_of_nat_pos M HM) as Hpos.
  unfold of_nat, of_int. rewrite (fdiv_fin 0) by lra.
  replace (0 / IZR (Z.of_nat M)) with 0 by (field; lra).
  cbn [fsqrt]. rewrite !Rltb_false by lra. rewrite sqrt_0.
  assert (Hsq : 0 < sqrt (IZR (Z.of_nat M))) by now apply sqrt_lt_R0.
  rewrite fdiv_fin by lra. cbn [fmul]. f_equal. ring.
Qed.

(** When every draw has the same finite SNR [v] against the ground truth,
    the Monte-Carlo aggregate is [(v, 0)]: the spread term vanishes, for a
    single draw too. *)
Theorem SignaltoNoiseRatioMC_equal_draws
    (groundTruth : ndarray) (draws : list ndarray) (v : R) :
  (1 <= length draws)%nat ->
  Forall (fun e => SignaltoNoiseRatio groundTruth e = Ok (Fin v)) draws ->
  SignaltoNoiseRatioMC groundTruth
    (mk_ndarray2 (length draws) (length groundTruth) draws)
  = Ok (Fin v, Fin 0).
Proof.
  intros HM Hall.
  assert (Hloop : mapM (SignaltoNoiseRatio groundTruth) draws
                  = Ok (repeat (Fin v) (length draws))).
  { apply mapM_Ok. clear HM. induction Hall; cbn [length repeat]; now constructor. }
  rewrite (MC_of_draws _ _ _ HM Hloop).
  now rewrite arith_mean_const, half_width_const.
Qed.

Lemma SignaltoNoiseRatioMC_equal_draws_witness :
  SignaltoNoiseRatioMC (series [1; 1]) (mk_ndarray2 2 2 [series [2; 2]; series [2; 0]])
  = Ok (Fin (10 * (ln 1 / ln 10)), Fin 0).
Proof.
  assert (Hmean1 : errorMean [1; 1] [2; 2] = Fin 1).
  { unfold errorMean, sum_range, absdiff, of_int; simpl.
    replace (2 - 1) with 1 by lra. rewrite Rabs_R1.
    rewrite Reqb_false by lra. f_equal; lra. }
  assert (Hmean2 : errorMean [1; 1] [2; 0] = Fin 1).
  { unfold errorMean, sum_range, absdiff, of_int; simpl.
    replace (0 - 1) with (- (1)) by lra. rewrite Rabs_Ropp, Rabs_R1.
    rewrite Reqb_false by lra. f_equal; lra. }
  apply (SignaltoNoiseRatioMC_equal_draws (series [1; 1])
           [series [2; 2]; series [2; 0]] (10 * (ln 1 / ln 10))).
  - simpl; lia.
  - constructor; [|constructor; [|constructor]].
    + rewrite SNR_series by (simpl; lia).
      unfold snr_signed, snr_formula, squaredError. rewrite Hmean1.
      unfold diff. cbn [nth].
      rewrite (fdiv_fin (2 - 1) 1) by lra. rewrite fgt_fin_false by lra.
      unfold sum_range, absdiff.
      cbn [length Nat.sub seq map Rsum fold_right nth].
      replace (2 - 1) with 1 by lra. rewrite Rabs_R1.
      rewrite fdiv_fin by (simpl; lra).
      replace ((1 ^ 2 + (1 ^ 2 + 0)) / (1 ^ 2 + (1 ^ 2 + 0))) with 1 by (simpl; lra).
      now rewrite decibel_fin by lra.
    + rewrite SNR_series by (simpl; lia).
      unfold snr_signed, snr_formula, squaredError. rewrite Hmean2.
      unfold diff. cbn [nth].
      rewrite (fdiv_fin (2 - 1) 1) by lra. rewrite fgt_fin_false by lra.
      unfold sum_range, absdiff.
      cbn [length Nat.sub seq map Rsum fold_right nth].
      replace (2 - 1) with 1 by lra. replace (0 - 1) with (- (1)) by lra.
      rewrite Rabs_Ropp, Rabs_R1.
      rewrite fdiv_fin by (simpl; lra).
      replace ((1 ^ 2 + (1 ^ 2 + 0)) / (1 ^ 2 + (1 ^ 2 + 0))) with 1 by (simpl; lra).
      now rewrite decibel_fin by lra.
Defined.

(** *** Units are independent *)

Lemma ByDep_unfold (gt est : ndarray2) :
  wf2 gt -> wf2 est ->
  SNRByDep_indic gt est
  = (py_assert (Nat.eqb (shape0 est) (shape0 gt)) ;;;
     py_assert (Nat.eqb (shape1 est) (shape1 gt)) ;;;
     mapM (fun p => SignaltoNoiseRatio (fst p) (snd p)) (combine (rows gt) (rows est))).
Proof.
  intros Hg He. unfold SNRByDep_indic. cbn [np_shape].
  destruct (Nat.eqb_spec (shape0 est) (shape0 gt)) as [H0|H0]; [|reflexivity].
  cbn [py_assert bind].
  destruct (Nat.eqb_spec (shape1 est) (shape1 gt)) as [H1|H1]; [|reflexivity].
  cbn [py_assert bind].
  destruct Hg as [Hg0 _], He as [He0 _].
  apply (mapM_rows2 SignaltoNoiseRatio gt est); congruence.
Qed.

Lemma wf2_vstack (a b : ndarray2) :
  wf2 a -> wf2 b -> shape1 a = shape1 b -> wf2 (vstack a b).
Proof.
  intros [Ha0 Ha1] [Hb0 Hb1] H1. split; cbn [vstack rows shape0 shape1].
  - rewrite length_app. congruence.
  - apply Forall_app. split; [exact Ha1|].
    eapply Forall_impl; [|exact Hb1]. intros r Hr. cbv beta in *. congruence.
Qed.

(** Stacking two groups of units gives the indicators of the first group
    followed by those of the second, and the first exception met in that
    order: the value of a unit does not depend on the other units. *)
Theorem SNRByDep_indic_vstack (gt1 gt2 est1 est2 : ndarray2) :
  wf2 gt1 -> wf2 gt2 -> wf2 est1 -> wf2 est2 ->
  shape0 gt1 = shape0 est1 -> shape0 gt2 = shape0 est2 ->
  shape1 gt1 = shape1 est1 -> shape1 gt2 = shape1 est2 ->
  shape1 gt1 = shape1 gt2 ->
  SNRByDep_indic (vstack gt1 gt2) (vstack est1 est2)
  = (a <- SNRByDep_indic gt1 est1 ;;
     b <- SNRByDep_indic gt2 est2 ;;
     Ok (a ++ b)).
Proof.
  intros Hg1 Hg2 He1 He2 H01 H02 H11 H12 H1.
  rewrite (ByDep_unfold (vstack gt1 gt2) (vstack est1 est2))
    by (apply wf2_vstack; congruence).
  rewrite (ByDep_unfold gt1 est1), (ByDep_unfold gt2 est2) by assumption.
  cbn [vstack shape0 shape1 rows].
  rewrite H01, H02, H11, H12, !Nat.eqb_refl. cbn [py_assert bind].
  rewrite combine_app_eq by (destruct Hg1 as [-> _], He1 as [-> _]; exact H01).
  apply mapM_app.
Qed.

Lemma SNRByDep_indic_vstack_witness :
  SNRByDep_indic
    (vstack (mk_ndarray2 1 2 [series [1; 2]]) (mk_ndarray2 1 2 [series [3; 4]]))
    (vstack (mk_ndarray2 1 2 [series [1; 3]]) (mk_ndarray2 1 2 [series [3; 5]]))
  = (a <- SNRByDep_indic (mk_ndarray2 1 2 [series [1; 2]]) (mk_ndarray2 1 2 [series [1; 3]]) ;;
     b <- SNRByDep_indic (mk_ndarray2 1 2 [series [3; 4]]) (mk_ndarray2 1 2 [series [3; 5]]) ;;
     Ok (a ++ b)).
Proof.
  apply SNRByDep_indic_vstack;
    try (split; [reflexivity | repeat constructor]); reflexivity.
Defined.

(** On well-formed arrays, the per-unit function and the mean raise
    [AssertionError] exactly when the two shapes differ: the length check
    inside [SignaltoNoiseRatio] and the check of the number of indicators in
    [SNRMean_indic] never fail. *)
Theorem SNR_indic_assertion (groundTruth estimation : ndarray2) :
  wf2 groundTruth -> wf2 estimation ->
  (SNRByDep_indic groundTruth estimation = Raise AssertionError
   <-> shape0 groundTruth <> shape0 estimation \/
       shape1 groundTruth <> shape1 estimation) /\
  (SNRMean_indic groundTruth estimation = Raise AssertionError
   <-> shape0 groundTruth <> shape0 estimation \/
       shape1 groundTruth <> shape1 estimation).
Proof.
  intros Hg He.
  assert (Hby : SNRByDep_indic groundTruth estimation = Raise AssertionError
                <-> shape0 groundTruth <> shape0 estimation \/
                    shape1 groundTruth <> shape1 estimation).
  { rewrite (ByDep_unfold _ _ Hg He).
    destruct (Nat.eqb_spec (shape0 estimation) (shape0 groundTruth)) as [H0|H0];
      cbn [py_assert bind]; [|split; [intros _; left; congruence | reflexivity]].
    destruct (Nat.eqb_spec (shape1 estimation) (shape1 groundTruth)) as [H1|H1];
      cbn [py_assert bind]; [|split; [intros _; right; congruence | reflexivity]].
    split; [|intros [H|H]; congruence].
    intros Hraise. exfalso.
    destruct (mapM_Raise _ _ _ Hraise) as [[g e] [Hin Hsnr]]. cbn [fst snd] in Hsnr.
    apply SNR_assertion_inv in Hsnr. apply Hsnr.
    destruct Hg as [_ Hg1], He as [_ He1]. rewrite Forall_forall in Hg1, He1.
    rewrite (Hg1 g (in_combine_l _ _ _ _ Hin)), (He1 e (in_combine_r _ _ _ _ Hin)).
    congruence. }
  split; [exact Hby|].
  unfold SNRMean_indic. cbn [np_shape].
  destruct (Nat.eqb_spec (shape0 estimation) (shape0 groundTruth)) as [H0|H0];
    cbn [py_assert bind]; [|split; [intros _; left; congruence | reflexivity]].
  destruct (Nat.eqb_spec (shape1 estimation) (shape1 groundTruth)) as [H1|H1];
    cbn [py_assert bind]; [|split; [intros _; right; congruence | reflexivity]].
  split; [|intros [H|H]; congruence].
  destruct (SNRByDep_indic groundTruth estimation) as [vs|e] eqn:Hvs; cbn [bind].
  - assert (Hlen : length vs = shape0 estimation).
    { rewrite ByDep_rows in Hvs by (try assumption; congruence).
      apply mapM_Ok in Hvs. destruct Hg as [Hg0 _], He as [He0 _].
      rewrite <- (Forall2_length Hvs), length_combine. lia. }
    rewrite Hlen, Nat.eqb_refl. cbn [py_assert bind].
    unfold py_inv. destruct (Nat.eqb (shape0 estimation) 0); discriminate.
  - intros Hraise. injection Hraise as ->.
    destruct (proj1 Hby eq_refl); congruence.
Qed.

Lemma SNR_indic_assertion_witness :
  (SNRByDep_indic (mk_ndarray2 1 2 [series [1; 2]]) (mk_ndarray2 1 3 [series [1; 2; 3]])
   = Raise AssertionError
   <-> 1%nat <> 1%nat \/ 2%nat <> 3%nat) /\
  (SNRMean_indic (mk_ndarray2 1 2 [series [1; 2]]) (mk_ndarray2 1 3 [series [1; 2; 3]])
   = Raise AssertionError
   <-> 1%nat <> 1%nat \/ 2%nat <> 3%nat).
Proof.
  apply (SNR_indic_assertion (mk_ndarray2 1 2 [series [1; 2]])
                             (mk_ndarray2 1 3 [series [1; 2; 3]]));
    (split; [reflexivity | repeat constructor]).
Defined.

Lemma wf2_tile (M : nat) (xs : ndarray) : wf2 (tile M xs).
Proof.
  split; cbn [tile rows shape0 shape1]; [apply repeat_length|].
  apply Forall_forall. intros r Hr. now apply repeat_spec in Hr as ->.
Qed.

Lemma combine_repeat {A B : Type} (x : A) (l : list B) :
  combine (repeat x (length l)) l = map (pair x) l.
Proof. induction l as [|y l IH]; [reflexivity|]. cbn. now rewrite IH. Qed.

(** The mean over units is the Monte-Carlo mean when every unit has the
    same ground truth: on a well-formed array of draws, [SNRMean_indic] of the
    ground truth repeated once per draw is the first component of
    [SignaltoNoiseRatioMC], with the same exception when that raises. *)
Theorem SNRMean_indic_tile (groundTruth : ndarray) (estimations : ndarray2) :
  wf2 estimations ->
  SNRMean_indic (tile (shape0 estimations) groundTruth) estimations
  = (r <- SignaltoNoiseRatioMC groundTruth estimations ;; Ok (fst r)).
Proof.
  intros Hwf. rewrite (MC_unfold _ _ Hwf).
  unfold SNRMean_indic. cbn [np_shape].
  rewrite (ByDep_unfold _ estimations (wf2_tile _ _) Hwf).
  change (shape0 (tile (shape0 estimations) groundTruth)) with (shape0 estimations).
  change (shape1 (tile (shape0 estimations) groundTruth)) with (length groundTruth).
  change (rows (tile (shape0 estimations) groundTruth))
    with (repeat groundTruth (shape0 estimations)).
  rewrite Nat.eqb_refl. cbn [py_assert bind].
  destruct (Nat.eqb (shape1 estimations) (length groundTruth));
    cbn [py_assert bind]; [|reflexivity].
  destruct Hwf as [H0 _].
  rewrite <- H0 at 1. rewrite combine_repeat, mapM_map. cbn [fst snd].
  destruct (mapM (fun x => SignaltoNoiseRatio groundTruth x) (rows estimations))
    as [vs|e] eqn:Hvs; cbn [bind]; [|reflexivity].
  assert (Hlen : length vs = shape0 estimations).
  { apply mapM_Ok in Hvs. now rewrite <- (Forall2_length Hvs). }
  rewrite Hlen, Nat.eqb_refl. cbn [py_assert bind].
  destruct (py_inv (shape0 estimations)); reflexivity.
Qed.

Lemma SNRMean_indic_tile_witness :
  SNRMean_indic (tile 2 (series [1; 2])) (mk_ndarray2 2 2 [series [1; 3]; series [2; 2]])
  = (r <- SignaltoNoiseRatioMC (series [1; 2])
            (mk_ndarray2 2 2 [series [1; 3]; series [2; 2]]) ;;
     Ok (fst r)).
Proof.
  apply (SNRMean_indic_tile (series [1; 2])
           (mk_ndarray2 2 2 [series [1; 3]; series [2; 2]])).
  split; [reflexivity | repeat constructor].
Defined.

End AggregateLaws.

(** ** Further properties of adaptiveYLimit *)

Module YLimitLaws.

Import NumPy Spec FormattingFigures NumPyFacts SNRProps YLimitProps.
Local Open Scope R_scope.

(** The function does not check its input: it raises [ValueError] on an
    empty series (from [np.max]), and on a series whose maximum is zero or
    negative it raises nothing and returns nan. *)
Theorem adaptiveYLimit_no_positive_value :
  adaptiveYLimit [] = Raise ValueError /\
  forall (Ydata : list R) (m : R),
    In m Ydata -> (forall x, In x Ydata -> x <= m) -> m <= 0 ->
    adaptiveYLimit (series Ydata) = Ok NaN.
Proof.
  split; [reflexivity|].
  intros Ydata m Hin Hub Hm. unfold adaptiveYLimit.
  rewrite (np_max_series _ _ Hin Hub). cbn [bind].
  pose proof ln10_pos as H10.
  assert (Hlog10 : flog (of_int 10) = Fin (ln 10))
    by (unfold of_int; simpl; rewrite Rltb_true by lra; reflexivity).
  rewrite Hlog10.
  destruct (Req_dec_T m 0) as [->|Hne].
  - cbn [flog]. rewrite Rltb_false, Reqb_refl by lra.
    cbn [fdiv]. rewrite Rltb_false by lra.
    cbn [ffloor pow10]. rewrite Reqb_refl, inf_of_sign_0. reflexivity.
  - cbn [flog]. rewrite Rltb_false, Reqb_false by lra. reflexivity.
Qed.

Lemma adaptiveYLimit_no_positive_value_witness :
  adaptiveYLimit (series [-3; 0; -1]) = Ok NaN.
Proof.
  apply (proj2 adaptiveYLimit_no_positive_value [-3; 0; -1] 0).
  - simpl; auto.
  - intros x [<- | [<- | [<- | []]]]; lra.
  - lra.
Defined.

End YLimitLaws.

(** ** Further properties of adaptiveDaysLocator *)

Module LocatorLaws.

Import Spec FormattingFigures LocatorProps.
Local Open Scope Z_scope.

(** [num2date] yields a day of month between 1 and 31 *)
Lemma num2date_day_range (n : Z) : 1 <= day (num2date n) <= 31.
Proof.
  unfold num2date. cbn [day].
  set (doe := n + 719468 - (n + 719468) / 146097 * 146097).
  assert (Hdoe : 0 <= doe <= 146096)
    by (unfold doe; Z.to_euclidean_division_equations; lia).
  clearbody doe.
  set (yoe := (doe - doe / 1460 + doe / 36524 - doe / 146096) / 365).
  assert (Hdoy : 0 <= doe - (365 * yoe + yoe / 4 - yoe / 100) <= 365)
    by (unfold yoe; Z.to_euclidean_division_equations; lia).
  set (doy := doe - (365 * yoe + yoe / 4 - yoe / 100)) in *. clearbody doy.
  Z.to_euclidean_division_equations; lia.
Qed.

Lemma normalised_range (dom : Z) : 1 <= dom <= 31 -> 1 <= normalised dom <= 28.
Proof.
  intros H. unfold normalised.
  destruct (Z.leb_spec 29 dom), (Z.leb_spec dom 31); cbn [andb]; lia.
Qed.

Lemma int_round_div_bounds (a b lo hi : Z) :
  0 < b -> (2 * lo - 1) * b < 2 * a -> 2 * a < (2 * hi + 1) * b ->
  lo <= int_round_div a b <= hi.
Proof.
  intros Hb Hlo Hhi. unfold int_round_div.
  pose proof (Z.div_mod a b ltac:(lia)) as Hdm.
  pose proof (Z.mod_pos_bound a b Hb) as Hm.
  destruct (Z.ltb_spec (2 * (a mod b)) b);
    [|destruct (Z.ltb_spec b (2 * (a mod b))); [|destruct (Z.even (a / b))]]; nia.
Qed.

(** From three dates on, the tick interval handed to the locator is a
    positive integer: 1 to 7 days, 1 to 3 weeks, or 1 to 4 months. *)
Theorem adaptiveDaysLocator_interval_range
    (formattedDates : list Z) (locator : Locator) (fmt : Formatter) :
  adaptiveDaysLocator formattedDates = Ok (locator, fmt) ->
  (3 <= length formattedDates)%nat ->
  match locator with
  | DayLocator interval => 1 <= interval <= 7
  | WeekdayLocator interval _ => 1 <= interval <= 3
  | MonthLocator interval _ => 1 <= interval <= 4
  | YearLocator => True
  end.
Proof.
  intros Hres Hlen.
  destruct formattedDates as [|d0 rest]; [discriminate|].
  rewrite (locator_branches (d0 :: rest) d0 eq_refl) in Hres. cbv zeta in Hres.
  remember (Z.of_nat (length (d0 :: rest))) as days eqn:Hdays.
  assert (H3 : 3 <= days) by lia. clear Hdays Hlen.
  destruct (Z.ltb_spec days 35).
  { apply daily_inv in Hres as [_ Heq]. injection Heq as -> _.
    apply int_round_div_bounds; lia. }
  destruct (Z.ltb_spec days 111).
  { injection Hres as <- _. apply int_round_div_bounds; lia. }
  destruct (Z.ltb_spec days 550).
  { injection Hres as <- _. apply int_round_div_bounds; lia. }
  injection Hres as <- _. exact I.
Qed.

Lemma adaptiveDaysLocator_interval_range_witness : 1 <= 3 <= 4.
Proof.
  apply (adaptiveDaysLocator_interval_range (date_range 18291 400)
           (MonthLocator 3 1) (DateFormatter "%b~%Y")).
  - vm_compute; reflexivity.
  - rewrite date_range_length. lia.
Defined.

(** The anchors are always valid: a weekly locator gets a [byweekday]
    between 1 and 4, a monthly locator a [bymonthday] between 1 and 28, a day
    that every month has. *)
Theorem adaptiveDaysLocator_anchor_range
    (formattedDates : list Z) (locator : Locator) (fmt : Formatter) :
  adaptiveDaysLocator formattedDates = Ok (locator, fmt) ->
  match locator with
  | WeekdayLocator _ byweekday => 1 <= byweekday <= 4
  | MonthLocator _ bymonthday => 1 <= bymonthday <= 28
  | _ => True
  end.
Proof.
  intros Hres.
  destruct formattedDates as [|d0 rest]; [discriminate|].
  rewrite (locator_branches (d0 :: rest) d0 eq_refl) in Hres. cbv zeta in Hres.
  pose proof (normalised_range _ (num2date_day_range d0)) as Hn.
  destruct (_ <? 35);
    [apply daily_inv in Hres as [_ Heq]; injection Heq as -> _; exact I|].
  destruct (_ <? 111).
  { injection Hres as <- _. cbv beta iota. unfold int_ceil_div.
    set (firstDay := normalised _) in *. clearbody firstDay.
    Z.to_euclidean_division_equations; lia. }
  destruct (_ <? 550); injection Hres as <- _; [exact Hn | exact I].
Qed.

Lemma adaptiveDaysLocator_anchor_range_witness : 1 <= 1 <= 28.
Proof.
  apply (adaptiveDaysLocator_anchor_range (date_range 18291 400)
           (MonthLocator 3 1) (DateFormatter "%b~%Y")).
  vm_compute; reflexivity.
Defined.



End LocatorLaws.

(** ** Properties of display_figures.py *)

Module DisplayProps.

Import NumPy FormattingFigures DisplayFigures LoopFacts.

Lemma andThen_inv {A B : Type} (m : run A) (k : A -> run B) (t : list call) (b : B) :
  andThen m k = (t, Return b) ->
  exists t1 a t2, m = (t1, Return a) /\ k a = (t2, Return b) /\ t = t1 ++ t2.
Proof.
  unfold andThen. destruct m as [t1 [a|e]]; [|discriminate].
  destruct (k a) as [t2 r] eqn:Hk. intros H; injection H as <- ->.
  now exists t1, a, t2.
Qed.

Lemma andThen_emit_inv {B : Type} (c : call) (k : unit -> run B) (t : list call) (b : B) :
  andThen (emit c) k = (t, Return b) ->
  exists t', k tt = (t', Return b) /\ t = c :: t'.
Proof.
  intros H. apply andThen_inv in H as (t1 & [] & t2 & Hm & Hk & ->).
  injection Hm as <-. now exists t2.
Qed.

Lemma lift_inv {A : Type} (r : result A) (t : list call) (a : A) :
  lift r = (t, Return a) -> r = Ok a /\ t = [].
Proof. destruct r; cbn; intros H; [injection H as <- <-; auto | discriminate]. Qed.

Lemma andThen_lift_inv {A B : Type} (r : result A) (k : A -> run B)
    (t : list call) (b : B) :
  andThen (lift r) k = (t, Return b) -> exists a, r = Ok a /\ k a = (t, Return b).
Proof.
  intros H. apply andThen_inv in H as (t1 & a & t2 & Hm & Hk & ->).
  apply lift_inv in Hm as [-> ->]. now exists a.
Qed.

Lemma plot_inv (ax : axis) (x : list Z) (y : ndarray) (l : string) (st : style)
    (t : list call) (u : unit) :
  plot ax x y l st = (t, Return u) -> length x = length y /\ t = [Plot ax x y l st].
Proof.
  unfold plot. destruct (Nat.eqb_spec (length x) (length y)); [|discriminate].
  intros H; injection H as <-. auto.
Qed.

Lemma andThen_plot_inv {B : Type} (ax : axis) (x : list Z) (y : ndarray) (l : string)
    (st : style) (k : unit -> run B) (t : list call) (b : B) :
  andThen (plot ax x y l st) k = (t, Return b) ->
  length x = length y /\ exists t', k tt = (t', Return b) /\ t = Plot ax x y l st :: t'.
Proof.
  intros H. apply andThen_inv in H as (t1 & [] & t2 & Hm & Hk & ->).
  apply plot_inv in Hm as [Hlen ->]. split; [exact Hlen|]. now exists t2.
Qed.

Lemma andThen_getitem_inv {V B : Type} (d : list (string * V)) (key : string)
    (k : V -> run B) (t : list call) (b : B) :
  andThen (getitem d key) k = (t, Return b) ->
  exists v, lookup key d = Some v /\ k v = (t, Return b).
Proof.
  intros H. apply andThen_inv in H as (t1 & v & t2 & Hm & Hk & ->).
  unfold getitem in Hm. destruct (lookup key d) as [v'|]; [|discriminate].
  injection Hm as <- <-. now exists v'.
Qed.

Lemma andThen_set_ylim_inv {B : Type} (ax : axis) (bottom top : float64)
    (k : unit -> run B) (t : list call) (b : B) :
  andThen (set_ylim ax bottom top) k = (t, Return b) ->
  is_finite bottom = true /\ is_finite top = true /\
  exists t', k tt = (t', Return b) /\ t = SetYlim ax bottom top :: t'.
Proof.
  intros H. apply andThen_inv in H as (t1 & [] & t2 & Hm & Hk & ->).
  unfold set_ylim in Hm.
  destruct (is_finite bottom), (is_finite top); try discriminate.
  injection Hm as <-. split; [reflexivity|]. split; [reflexivity|]. now exists t2.
Qed.

Lemma mapM_length {A B : Type} (f : A -> result B) (xs : list A) (ys : list B) :
  mapM f xs = Ok ys -> length ys = length xs.
Proof. intros H. apply mapM_Ok in H. symmetry. exact (Forall2_length H). Qed.

(** the date series has a first date when the locator returns *)
Lemma locator_nonempty (ds : list Z) (lf : Locator * Formatter) :
  adaptiveDaysLocator ds = Ok lf -> (1 <= length ds)%nat.
Proof. destruct ds; [discriminate | simpl; lia]. Qed.

(** the cropped ground truth has [n] values, the last [n] of [RTrue] *)
Lemma crop_RTrue_inv (RTrue : ndarray) (n : nat) (t : list call) (cropped : ndarray) :
  crop_RTrue RTrue n = (t, Return cropped) ->
  (n <= length RTrue)%nat /\ length cropped = n /\ t = [] /\
  cropped = skipn (length RTrue - n) RTrue.
Proof.
  unfold crop_RTrue. destruct (Nat.eqb_spec (length RTrue) n) as [Heq|Hne]; cbn [negb].
  - intros H; injection H as <- <-. rewrite <- Heq, Nat.sub_diag. auto.
  - unfold py_assert. destruct (Nat.ltb_spec n (length RTrue)) as [Hlt|Hge];
      cbn; [|discriminate].
    intros H; injection H as <- <-. unfold slice_from.
    repeat split; [lia | rewrite length_skipn; lia].
Qed.

(** Outlier estimates need the data panel: with [dataDisp = False] and an
    [OEstimate], [display_REstim] and [display_REstim2D] raise [ValueError]
    once the dates are parsed (and, in 2D, the counties counted); the figure
    has been created by then, and nothing has been plotted on it. *)
Theorem display_outliers_need_data
    (datestr2num : string -> result Z) (dates : list string) (formattedDates : list Z)
    (savefig : bool) (savePath : option string) :
  mapM datestr2num dates = Ok formattedDates ->
  (forall data est RTrue,
     has_OEstimate est = true ->
     display_REstim datestr2num dates data est RTrue false savefig savePath
     = ([Call "plt.subplots" "nrows=1, ncols=1, figsize=(19.5, 9.5)";
         Call "fig.tight_layout" "pad=5";
         Call "plt.ticklabel_format" "axis=both, style=sci, scilimits=(0, 0)"],
        Fail (Py ValueError))) /\
  (forall data REstimate counties OEstimate RTrue title,
     length counties = shape0 data ->
     display_REstim2D datestr2num dates data REstimate counties (Some OEstimate)
       RTrue false savefig savePath title
     = ([Call "plt.subplots" "nrows=1, ncols=1, figsize=(19.5, 9.5)";
         Call "fig.tight_layout" "pad=5";
         Call "plt.ticklabel_format" "axis=both, style=sci, scilimits=(0, 0)"],
        Fail (Py ValueError))).
Proof.
  intros Hparse. split.
  - intros data est RTrue Hest. unfold display_REstim. rewrite Hparse.
    cbn [lift ret andThen emit app]. rewrite Hest. reflexivity.
  - intros data REstimate counties OEstimate RTrue title Hlen.
    unfold display_REstim2D. cbn [np_shape].
    rewrite Hlen, Nat.eqb_refl, Hparse. reflexivity.
Qed.

Lemma display_outliers_need_data_witness :
  (forall data est RTrue,
     has_OEstimate est = true ->
     display_REstim IsoDates.iso_datestr2num ["2020-01-30"; "2020-01-31"]%string
       data est RTrue false false None
     = ([Call "plt.subplots" "nrows=1, ncols=1, figsize=(19.5, 9.5)";
         Call "fig.tight_layout" "pad=5";
         Call "plt.ticklabel_format" "axis=both, style=sci, scilimits=(0, 0)"],
        Fail (Py ValueError))) /\
  (forall data REstimate counties OEstimate RTrue title,
     length counties = shape0 data ->
     display_REstim2D IsoDates.iso_datestr2num ["2020-01-30"; "2020-01-31"]%string
       data REstimate counties (Some OEstimate) RTrue false false None title
     = ([Call "plt.subplots" "nrows=1, ncols=1, figsize=(19.5, 9.5)";
         Call "fig.tight_layout" "pad=5";
         Call "plt.ticklabel_format" "axis=both, style=sci, scilimits=(0, 0)"],
        Fail (Py ValueError))).
Proof.
  apply (display_outliers_need_data IsoDates.iso_datestr2num
           ["2020-01-30"; "2020-01-31"]%string [18291; 18292]%Z false None).
  vm_compute; reflexivity.
Defined.

(** With a single method other than 'U' and 'U-O', an [OEstimate] is
    ignored when the data panel is shown: the run is the one without it, no
    denoised curve is drawn and no exception is raised on its account. *)
Theorem display_REstim_outliers_ignored
    (datestr2num : string -> result Z) (dates : list string) (data REstimate : ndarray)
    (method : string) (OEstimate : ndarray) (RTrue : option ndarray)
    (savefig : bool) (savePath : option string) :
  method <> "U"%string -> method <> "U-O"%string ->
  display_REstim datestr2num dates data (Single REstimate method (Some OEstimate))
    RTrue true savefig savePath
  = display_REstim datestr2num dates data (Single REstimate method None)
      RTrue true savefig savePath.
Proof.
  intros HU HUO. unfold display_REstim. cbn [existsb].
  apply String.eqb_neq in HU, HUO. rewrite HU, HUO. reflexivity.
Qed.

Lemma display_REstim_outliers_ignored_witness :
  display_REstim IsoDates.iso_datestr2num ["2020-01-30"; "2020-01-31"]%string
    [Fin 1; Fin 2] (Single [Fin 1; Fin 1] "MLE" (Some [Fin 0; Fin 1])) None true false None
  = display_REstim IsoDates.iso_datestr2num ["2020-01-30"; "2020-01-31"]%string
      [Fin 1; Fin 2] (Single [Fin 1; Fin 1] "MLE" None) None true false None.
Proof.
  apply display_REstim_outliers_ignored; discriminate.
Defined.

Lemma andThen_when_inv {B : Type} (c : bool) (m : run unit) (k : unit -> run B)
    (t : list call) (b : B) :
  andThen (when c m) k = (t, Return b) ->
  exists t1 t2, (if c then m = (t1, Return tt) else t1 = []) /\
                k tt = (t2, Return b) /\ t = t1 ++ t2.
Proof.
  intros H. apply andThen_inv in H as (t1 & [] & t2 & Hm & Hk & ->).
  exists t1, t2. split; [|auto]. destruct c; [exact Hm|].
  cbn in Hm. now injection Hm as <-.
Qed.

(** one step back through a run that returned *)
Ltac inv_run H :=
  lazymatch type of H with
  | andThen (emit _) _ = (_, Return _) =>
      let t' := fresh "t" in
      apply andThen_emit_inv in H; destruct H as (t' & H & ->)
  | andThen (lift _) _ = (_, Return _) =>
      let a := fresh "a" in let Ha := fresh "Ha" in
      apply andThen_lift_inv in H; destruct H as (a & Ha & H)
  | andThen (plot _ _ _ _ _) _ = (_, Return _) =>
      let t' := fresh "t" in let Hlen := fresh "Hplot" in
      apply andThen_plot_inv in H; destruct H as (Hlen & t' & H & ->)
  | andThen (getitem _ _) _ = (_, Return _) =>
      let v := fresh "v" in let Hv := fresh "Hkey" in
      apply andThen_getitem_inv in H; destruct H as (v & Hv & H)
  | andThen (set_ylim _ _ _) _ = (_, Return _) =>
      let t' := fresh "t" in let Hf := fresh "Hfinite" in
      apply andThen_set_ylim_inv in H; destruct H as (_ & Hf & t' & H & ->)
  | andThen (when _ _) _ = (_, Return _) =>
      let t1 := fresh "t" in let t2 := fresh "t" in let Hw := fresh "Hwhen" in
      apply andThen_when_inv in H; destruct H as (t1 & t2 & Hw & H & ->)
  | andThen _ _ = (_, Return _) =>
      let t1 := fresh "t" in let t2 := fresh "t" in
      let a := fresh "a" in let Hm := fresh "Hm" in
      apply andThen_inv in H; destruct H as (t1 & a & t2 & Hm & H & ->)
  end.

(** [display_data] returns only when the dates parse and there are as many
    dates as data values, at least one; it has then drawn the data against the
    parsed dates, set the y limits to [0, adaptiveYLimit(data)], and returns
    the parsed dates. *)
Theorem display_data_returns
    (datestr2num : string -> result Z) (dates : list string) (data : ndarray)
    (title : string) (savefig : bool) (savePath : option string)
    (t : list call) (ax : axis) (formattedDates : list Z) :
  display_data datestr2num dates data title savefig savePath
  = (t, Return (ax, formattedDates)) ->
  mapM datestr2num dates = Ok formattedDates /\
  length data = length dates /\
  (1 <= length dates)%nat /\
  In (Plot ax formattedDates data "$\mathsf{Z}_t$" (WithColor (ColorName "black"))) t /\
  exists top, adaptiveYLimit data = Ok top /\ In (SetYlim ax (Fin 0) top) t.
Proof.
  unfold display_data. intros H.
  inv_run H. do 3 inv_run H. inv_run H. do 4 inv_run H.
  inv_run H. do 2 inv_run H. inv_run H. do 4 inv_run H.
  inv_run H. inv_run H.
  cbn in H. injection H as <- <- <-.
  pose proof (mapM_length _ _ _ Ha) as Hlen.
  pose proof (locator_nonempty _ _ Ha0) as Hne.
  split; [exact Ha|]. split; [lia|]. split; [lia|].
  split; [cbn; auto 10|].
  exists a1. split; [exact Ha1|]. cbn. auto 20.
Qed.

Lemma display_data_returns_witness :
  mapM IsoDates.iso_datestr2num ["2020-01-30"; "2020-01-31"; "2020-02-01"]%string
  = Ok [18291; 18292; 18293]%Z /\
  length (series [5; 42; 97]%R) = 3%nat /\
  (1 <= 3)%nat /\
  In (Plot (Ax 0) [18291; 18292; 18293]%Z (series [5; 42; 97]%R)
        "$\mathsf{Z}_t$" (WithColor (ColorName "black")))
     (fst (display_data IsoDates.iso_datestr2num
             ["2020-01-30"; "2020-01-31"; "2020-02-01"]%string
             (series [5; 42; 97]%R) "cases" false None)) /\
  exists top, adaptiveYLimit (series [5; 42; 97]%R) = Ok top /\
    In (SetYlim (Ax 0) (Fin 0) top)
       (fst (display_data IsoDates.iso_datestr2num
               ["2020-01-30"; "2020-01-31"; "2020-02-01"]%string
               (series [5; 42; 97]%R) "cases" false None)).
Proof.
  apply (display_data_returns IsoDates.iso_datestr2num
           ["2020-01-30"; "2020-01-31"; "2020-02-01"]%string
           (series [5; 42; 97]%R) "cases" false None).
  unfold display_data. rewrite YLimitProps.adaptiveYLimit_example. reflexivity.
Defined.

Ltac in_trace_search :=
  lazymatch goal with
  | |- _ = _ => reflexivity
  | |- _ \/ _ => first [left; in_trace_search | right; in_trace_search]
  end.
Ltac in_trace := repeat (rewrite in_app_iff || cbn [In]); in_trace_search.

(** [display_REstim] with a single method returns only when the dates
    parse, there is at least one date, [REstimate] has one value per date, the
    method is a key of the colour table, the data (when shown) has one value
    per date, and no [OEstimate] comes without the data panel.  A ground truth
    [RTrue] must be at least as long as the data, which must have one value
    per date even when it is not shown; what is drawn is the last [len(data)]
    values of [RTrue]. *)
Theorem display_REstim_single_returns
    (datestr2num : string -> result Z) (dates : list string) (data REstimate : ndarray)
    (method : string) (OEstimate RTrue : option ndarray)
    (dataDisp savefig : bool) (savePath : option string)
    (t : list call) (ax : axis) (formattedDates : list Z) :
  display_REstim datestr2num dates data (Single REstimate method OEstimate)
    RTrue dataDisp savefig savePath
  = (t, Return (ax, formattedDates)) ->
  mapM datestr2num dates = Ok formattedDates /\
  length REstimate = length dates /\
  (1 <= length dates)%nat /\
  (exists c, lookup method colors = Some c) /\
  (dataDisp = true -> length data = length dates) /\
  (dataDisp = false -> OEstimate = None) /\
  (forall RTrue', RTrue = Some RTrue' ->
     length data = length dates /\
     (length data <= length RTrue')%nat /\
     In (Plot (if dataDisp then Ax 1 else Ax 0) formattedDates
           (skipn (length RTrue' - length data) RTrue')
           "$\mathsf{R}^{\mathrm{true}}$" (WithColor (ColorName "black"))) t).
Proof.
  unfold display_REstim. intros H.
  inv_run H. inv_run H. inv_run H. inv_run H. inv_run H. inv_run H.
  (* the R curve *)
  inv_run Hm1. inv_run Hm1. clear Hm1.
  (* the tail of the function *)
  repeat inv_run H. cbn in H. injection H as <- <- <-.
  match goal with
  | Hl : adaptiveDaysLocator _ = Ok _ |- _ =>
      pose proof (locator_nonempty _ _ Hl) as Hne
  end.
  match goal with
  | Hp : mapM datestr2num dates = Ok _ |- _ =>
      pose proof (mapM_length _ _ _ Hp) as Hlen; split; [exact Hp|]
  end.
  split; [lia|]. split; [lia|].
  split; [eexists; eassumption|]. split; [|split].
  - intros ->. inv_run Hm0. lia.
  - intros ->. cbn in Hm0. destruct OEstimate; [discriminate | reflexivity].
  - intros RTrue' ->. inv_run Hm2.
    match goal with
    | Hc : crop_RTrue _ _ = _ |- _ =>
        apply crop_RTrue_inv in Hc as (Hle & Hcrop & -> & ->)
    end.
    apply plot_inv in Hm2 as [Hplot' ->].
    split; [lia|]. split; [exact Hle|].
    in_trace.
Qed.

Lemma display_REstim_single_returns_witness :
  mapM IsoDates.iso_datestr2num ["2020-01-30"; "2020-01-31"; "2020-02-01"]%string
  = Ok [18291; 18292; 18293]%Z /\
  length [Fin 1; Fin 2; Fin 1] = 3%nat /\
  (1 <= 3)%nat /\
  (exists c, lookup "MLE" colors = Some c) /\
  (false = true -> length [Fin 5; Fin 6; Fin 7] = 3%nat) /\
  (false = false -> @None ndarray = None) /\
  (forall RTrue', Some [Fin 9; Fin 1; Fin 1; Fin 1] = Some RTrue' ->
     length [Fin 5; Fin 6; Fin 7] = 3%nat /\
     (length [Fin 5; Fin 6; Fin 7] <= length RTrue')%nat /\
     In (Plot (Ax 0) [18291; 18292; 18293]%Z
           (skipn (length RTrue' - length [Fin 5; Fin 6; Fin 7]) RTrue')
           "$\mathsf{R}^{\mathrm{true}}$" (WithColor (ColorName "black")))
        (fst (display_REstim IsoDates.iso_datestr2num
                ["2020-01-30"; "2020-01-31"; "2020-02-01"]%string
                [Fin 5; Fin 6; Fin 7] (Single [Fin 1; Fin 2; Fin 1] "MLE" None)
                (Some [Fin 9; Fin 1; Fin 1; Fin 1]) false false None))).
Proof.
  apply (display_REstim_single_returns IsoDates.iso_datestr2num
           ["2020-01-30"; "2020-01-31"; "2020-02-01"]%string
           [Fin 5; Fin 6; Fin 7] [Fin 1; Fin 2; Fin 1] "MLE" None
           (Some [Fin 9; Fin 1; Fin 1; Fin 1]) false false None
           (fst (display_REstim IsoDates.iso_datestr2num
                   ["2020-01-30"; "2020-01-31"; "2020-02-01"]%string
                   [Fin 5; Fin 6; Fin 7] (Single [Fin 1; Fin 2; Fin 1] "MLE" None)
                   (Some [Fin 9; Fin 1; Fin 1; Fin 1]) false false None))
           (Ax 0) [18291; 18292; 18293]%Z).
  reflexivity.
Defined.

(** In [display_REstim2D] each ground-truth curve is cropped to
    [len(data)] values, and for a 2D [data] that is the number of counties,
    not the number of days.  So with an [RTrue] and at least one county the
    function returns only when there are exactly as many dates as counties:
    every ground-truth curve handed to [plot] has [nbCounties] points. *)
Theorem display_REstim2D_RTrue_needs_square
    (datestr2num : string -> result Z) (dates : list string) (data REstimate : ndarray2)
    (counties : list string) (OEstimate : option ndarray2) (RTrue : ndarray2)
    (dataDisp savefig : bool) (savePath : option string) (title : string)
    (t : list call) (r : axis * list Z) :
  (1 <= shape0 data)%nat ->
  display_REstim2D datestr2num dates data REstimate counties OEstimate (Some RTrue)
    dataDisp savefig savePath title
  = (t, Return r) ->
  length dates = shape0 data /\
  exists RTrue0, nth_error (rows RTrue) 0 = Some RTrue0 /\
    (shape0 data <= length RTrue0)%nat /\
    In (Plot (if dataDisp then Ax 1 else Ax 0) (snd r)
          (skipn (length RTrue0 - shape0 data) RTrue0)
          "$\boldsymbol{\mathsf{R}}_{\mathrm{true}}$" Alpha075) t.
Proof.
  intros Hn. unfold display_REstim2D. cbn [np_shape].
  destruct (shape0 data) as [|n] eqn:Hshape; [lia|].
  intros H. inv_run H. inv_run H. inv_run H. inv_run H. inv_run H. inv_run H.
  inv_run H.
  (* the first ground-truth curve *)
  cbn [seq for_each] in Hm2. inv_run Hm2. unfold getrow in Hm3.
  inv_run Hm3. inv_run Hm3.
  match goal with
  | Hc : crop_RTrue _ _ = _ |- _ =>
      apply crop_RTrue_inv in Hc as (Hle & Hcrop & -> & ->)
  end.
  apply plot_inv in Hm3 as [Hplot ->].
  (* the value returned *)
  repeat inv_run H. cbn in H. injection H as <- <-.
  match goal with
  | Hp : mapM datestr2num dates = Ok _ |- _ =>
      pose proof (mapM_length _ _ _ Hp) as Hlen
  end.
  split; [lia|].
  match goal with
  | Hr : index (rows RTrue) 0 = Ok ?x |- _ => exists x; split
  end.
  - unfold index in *. destruct (nth_error (rows RTrue) 0); congruence.
  - split; [exact Hle|]. cbn [snd]. in_trace.
Qed.

Lemma display_REstim2D_RTrue_needs_square_witness :
  length ["2020-01-30"; "2020-01-31"; "2020-02-01"]%string = 3%nat /\
  exists RTrue0,
    nth_error [[Fin 1; Fin 1; Fin 1; Fin 1]; [Fin 1; Fin 1; Fin 1; Fin 1];
               [Fin 1; Fin 1; Fin 1; Fin 1]] 0 = Some RTrue0 /\
    (3 <= length RTrue0)%nat /\
    In (Plot (Ax 0) [18291; 18292; 18293]%Z (skipn (length RTrue0 - 3) RTrue0)
          "$\boldsymbol{\mathsf{R}}_{\mathrm{true}}$" Alpha075)
       (fst (display_REstim2D IsoDates.iso_datestr2num
               ["2020-01-30"; "2020-01-31"; "2020-02-01"]%string
               (mk_ndarray2 3 3 [[Fin 5; Fin 6; Fin 7]; [Fin 7; Fin 8; Fin 9];
                                 [Fin 2; Fin 3; Fin 4]])
               (mk_ndarray2 3 3 [[Fin 1; Fin 1; Fin 1]; [Fin 1; Fin 1; Fin 1];
                                 [Fin 1; Fin 1; Fin 1]])
               ["A"; "B"; "C"]%string None
               (Some (mk_ndarray2 3 4
                        [[Fin 1; Fin 1; Fin 1; Fin 1]; [Fin 1; Fin 1; Fin 1; Fin 1];
                         [Fin 1; Fin 1; Fin 1; Fin 1]]))
               false false None "")).
Proof.
  assert (Htop : REstim2D_top (mk_ndarray2 3 3 [[Fin 1; Fin 1; Fin 1]; [Fin 1; Fin 1; Fin 1];
                                                [Fin 1; Fin 1; Fin 1]])
                 = Ok (Fin 2)).
  { unfold REstim2D_top, np_max2, np_max. cbn [rows concat app fold_left].
    assert (Hmax : fmax (Fin 1) (Fin 1) = Fin 1).
    { unfold fmax, fgt. now rewrite NumPyFacts.Rltb_false by lra. }
    rewrite !Hmax. cbn [bind fmul fround].
    assert (Hround : round_half_even (1 * 5) = 5%Z).
    { unfold round_half_even.
      rewrite (YLimitProps.Rfloor_eq (1 * 5) 5) by lra.
      now rewrite NumPyFacts.Rltb_true by lra. }
    rewrite Hround. unfold of_int. rewrite NumPyFacts.fdiv_fin by lra.
    unfold py_max, fgt. rewrite NumPyFacts.Rltb_true by lra. reflexivity. }
  assert (Hticks : arange_half (Fin 2)
                   = Ok (map (fun k => Fin (0 + INR k * (5 / 10))%R) (seq 0 4))).
  { unfold arange_half. rewrite (YLimitProps.Rceil_eq (2 / (5 / 10)) 4) by lra.
    reflexivity. }
  apply (display_REstim2D_RTrue_needs_square IsoDates.iso_datestr2num
           ["2020-01-30"; "2020-01-31"; "2020-02-01"]%string
           (mk_ndarray2 3 3 [[Fin 5; Fin 6; Fin 7]; [Fin 7; Fin 8; Fin 9];
                             [Fin 2; Fin 3; Fin 4]])
           (mk_ndarray2 3 3 [[Fin 1; Fin 1; Fin 1]; [Fin 1; Fin 1; Fin 1];
                             [Fin 1; Fin 1; Fin 1]])
           ["A"; "B"; "C"]%string None
           (mk_ndarray2 3 4
              [[Fin 1; Fin 1; Fin 1; Fin 1]; [Fin 1; Fin 1; Fin 1; Fin 1];
               [Fin 1; Fin 1; Fin 1; Fin 1]])
           false false None ""
           (fst (display_REstim2D IsoDates.iso_datestr2num
                   ["2020-01-30"; "2020-01-31"; "2020-02-01"]%string
                   (mk_ndarray2 3 3 [[Fin 5; Fin 6; Fin 7]; [Fin 7; Fin 8; Fin 9];
                                     [Fin 2; Fin 3; Fin 4]])
                   (mk_ndarray2 3 3 [[Fin 1; Fin 1; Fin 1]; [Fin 1; Fin 1; Fin 1];
                                     [Fin 1; Fin 1; Fin 1]])
                   ["A"; "B"; "C"]%string None
                   (Some (mk_ndarray2 3 4
                            [[Fin 1; Fin 1; Fin 1; Fin 1]; [Fin 1; Fin 1; Fin 1; Fin 1];
                             [Fin 1; Fin 1; Fin 1; Fin 1]]))
                   false false None ""))
           (Ax 0, [18291; 18292; 18293]%Z)).
  - simpl; lia.
  - unfold display_REstim2D. rewrite Htop. cbn [lift andThen ret bind].
    rewrite Hticks. reflexivity.
Defined.

(** *** The R axis of display_REstim2D *)

Local Open Scope R_scope.

(** The limit can cut the highest curve: there is an [REstimate] whose
    greatest value lies above the upper limit of the R axis ([2.29], for
    which the limit is [2.2]). *)
Theorem REstim2D_axis_clips :
  exists (REstimate : ndarray2) (m top : R),
    np_max2 REstimate = Ok (Fin m) /\
    REstim2D_top REstimate = Ok (Fin top) /\
    top < m.
Proof.
  exists (mk_ndarray2 1 2 [[Fin 1; Fin (229 / 100)]]), (229 / 100), (11 / 5).
  assert (Hmax : np_max2 (mk_ndarray2 1 2 [[Fin 1; Fin (229 / 100)]])
                 = Ok (Fin (229 / 100))).
  { unfold np_max2, np_max. cbn [rows concat app fold_left].
    unfold fmax, fgt. now rewrite NumPyFacts.Rltb_true by lra. }
  split; [exact Hmax|]. split; [|lra].
  unfold REstim2D_top. rewrite Hmax. cbn [bind fmul fround].
  assert (Hround : round_half_even (229 / 100 * 5) = 11%Z).
  { unfold round_half_even.
    rewrite (YLimitProps.Rfloor_eq (229 / 100 * 5) 11) by lra.
    now rewrite NumPyFacts.Rltb_true by lra. }
  rewrite Hround. unfold of_int. rewrite NumPyFacts.fdiv_fin by lra.
  unfold py_max, fgt. now rewrite NumPyFacts.Rltb_false by lra.
Qed.

Local Close Scope R_scope.

(** *** Comparison mode and built data *)

(** In comparison mode with the data panel, [display_REstim] reads
    [OEstimate['U']] and [OEstimate['U-O']] whatever the methods compared: it
    returns only when [OEstimate] is a dict with both keys, and with
    [OEstimate = None] (the default) it raises [TypeError] right after drawing
    the data. *)
Theorem display_REstim_comparison_needs_outliers
    (datestr2num : string -> result Z) (dates : list string) (data : ndarray)
    (REstimate : list (string * ndarray)) (method : list string)
    (RTrue : option ndarray) (savefig : bool) (savePath : option string) :
  (forall OEstimate t r,
     display_REstim datestr2num dates data (Comparison REstimate method OEstimate)
       RTrue true savefig savePath = (t, Return r) ->
     exists d oU oUO,
       OEstimate = Some d /\ lookup "U" d = Some oU /\ lookup "U-O" d = Some oUO) /\
  (forall formattedDates,
     mapM datestr2num dates = Ok formattedDates ->
     length formattedDates = length data ->
     display_REstim datestr2num dates data (Comparison REstimate method None)
       RTrue true savefig savePath
     = ([Call "plt.subplots" "nrows=2, ncols=1, figsize=(19.5, 12)";
         Call "fig.tight_layout" "pad=6.5";
         Call "fig.subplots_adjust" "hspace=0.3, right=0.99, bottom=0.05, top=0.95";
         Call "plt.ticklabel_format" "axis=both, style=sci, scilimits=(0, 0)";
         Plot (Ax 0) formattedDates data "$\mathsf{Z}$" (WithColor (ColorName "black"))],
        Fail TypeError)).
Proof.
  split.
  - intros OEstimate t r H. unfold display_REstim in H.
    inv_run H. inv_run H. inv_run H. inv_run H. clear H.
    inv_run Hm0. inv_run Hm0. clear Hm0.
    cbn [for_each] in Hm1. inv_run Hm1. inv_run Hm1. clear Hm1.
    destruct OEstimate as [d|]; [|discriminate].
    unfold getitem_opt in *.
    inv_run Hm2. clear Hm2. inv_run Hm0. clear Hm0.
    repeat eexists; eassumption.
  - intros formattedDates Hparse Hlen. unfold display_REstim. rewrite Hparse.
    cbn [lift ret andThen emit app]. unfold plot.
    apply Nat.eqb_eq in Hlen. rewrite Hlen. reflexivity.
Qed.

Lemma display_REstim_comparison_needs_outliers_witness :
  display_REstim IsoDates.iso_datestr2num ["2020-01-30"; "2020-01-31"]%string
    [Fin 1; Fin 2] (Comparison [("MLE", [Fin 1; Fin 1])]%string ["MLE"]%string None)
    None true false None
  = ([Call "plt.subplots" "nrows=2, ncols=1, figsize=(19.5, 12)";
      Call "fig.tight_layout" "pad=6.5";
      Call "fig.subplots_adjust" "hspace=0.3, right=0.99, bottom=0.05, top=0.95";
      Call "plt.ticklabel_format" "axis=both, style=sci, scilimits=(0, 0)";
      Plot (Ax 0) [18291; 18292]%Z [Fin 1; Fin 2] "$\mathsf{Z}$"
        (WithColor (ColorName "black"))],
     Fail TypeError).
Proof.
  apply (proj2 (display_REstim_comparison_needs_outliers IsoDates.iso_datestr2num
                  ["2020-01-30"; "2020-01-31"]%string [Fin 1; Fin 2]
                  [("MLE", [Fin 1; Fin 1])]%string ["MLE"]%string None false None)
               [18291; 18292]%Z).
  - vm_compute; reflexivity.
  - reflexivity.
Defined.

(** [display_dataBuilt] returns only when the dates parse and the ground
    truth and the built data both have one value per date, at least one; with
    [displayO] it has also drawn the built data minus [OTrue]. *)
Theorem display_dataBuilt_returns
    (datestr2num : string -> result Z) (datesBuilt : list string)
    (dataBuilt RTrue OTrue : ndarray) (displayO savefig : bool)
    (savePath : option string) (t : list call) (ax : axis) (formattedDates : list Z) :
  display_dataBuilt datestr2num datesBuilt dataBuilt RTrue OTrue displayO savefig savePath
  = (t, Return (ax, formattedDates)) ->
  mapM datestr2num datesBuilt = Ok formattedDates /\
  length RTrue = length datesBuilt /\
  length dataBuilt = length datesBuilt /\
  (1 <= length datesBuilt)%nat /\
  (displayO = true ->
   exists y, np_subtract dataBuilt OTrue = Ok y /\
     In (Plot ax formattedDates y "$\mathsf{Z} - \mathsf{O}$"
           (WithColor (ColorName "black"))) t).
Proof.
  unfold display_dataBuilt. intros H.
  inv_run H. do 4 inv_run H. inv_run H. do 2 inv_run H.
  inv_run H. inv_run H. inv_run H.
  repeat inv_run H. cbn in H. injection H as <- <- <-.
  match goal with
  | Hl : adaptiveDaysLocator _ = Ok _ |- _ =>
      pose proof (locator_nonempty _ _ Hl) as Hne
  end.
  match goal with
  | Hp : mapM datestr2num datesBuilt = Ok _ |- _ =>
      pose proof (mapM_length _ _ _ Hp) as Hlen; split; [exact Hp|]
  end.
  split; [lia|]. split; [lia|]. split; [lia|].
  intros ->.
  match goal with
  | Hw : andThen (lift (np_subtract _ _)) _ = _ |- _ =>
      inv_run Hw; apply plot_inv in Hw as [Hplot' ->]
  end.
  eexists. split; [eassumption|]. in_trace.
Qed.

Lemma display_dataBuilt_returns_witness :
  mapM IsoDates.iso_datestr2num ["2020-01-30"; "2020-01-31"; "2020-02-01"]%string
  = Ok [18291; 18292; 18293]%Z /\
  length [Fin 1; Fin 1; Fin 1] = 3%nat /\
  length (series [5; 42; 97]%R) = 3%nat /\
  (1 <= 3)%nat /\
  (false = true ->
   exists y, np_subtract (series [5; 42; 97]%R) [Fin 0; Fin 0; Fin 0] = Ok y /\
     In (Plot (Ax 1) [18291; 18292; 18293]%Z y "$\mathsf{Z} - \mathsf{O}$"
           (WithColor (ColorName "black")))
        (fst (display_dataBuilt IsoDates.iso_datestr2num
                ["2020-01-30"; "2020-01-31"; "2020-02-01"]%string
                (series [5; 42; 97]%R) [Fin 1; Fin 1; Fin 1] [Fin 0; Fin 0; Fin 0]
                false false None))).
Proof.
  apply (display_dataBuilt_returns IsoDates.iso_datestr2num
           ["2020-01-30"; "2020-01-31"; "2020-02-01"]%string
           (series [5; 42; 97]%R) [Fin 1; Fin 1; Fin 1] [Fin 0; Fin 0; Fin 0]
           false false None).
  unfold display_dataBuilt. rewrite YLimitProps.adaptiveYLimit_example. reflexivity.
Defined.

(** *** Short date series and limits that are not finite *)

(** the locator returns only from three dates on *)
Lemma locator_three_dates (ds : list Z) (lf : Locator * Formatter) :
  adaptiveDaysLocator ds = Ok lf -> (3 <= length ds)%nat.
Proof.
  intros Hres. destruct ds as [|d0 rest]; [discriminate|].
  rewrite (LocatorProps.locator_branches (d0 :: rest) d0 eq_refl) in Hres.
  cbv zeta in Hres.
  remember (Z.of_nat (length (d0 :: rest))) as days eqn:Hdays.
  destruct (Z.ltb_spec days 35) as [Hlt|Hge]; [|lia].
  apply LocatorProps.daily_inv in Hres as [Hpos _].
  pose proof (LocatorProps.int_round_div_5_pos days ltac:(lia)). lia.
Qed.

(** [display_data] and [display_dataBuilt] return only on at least three
    dates and on data whose adaptive limit is finite: on one or two dates
    [DayLocator] refuses the interval 0, and [set_ylim] refuses a limit that
    is nan or infinite, as it is for data with no positive value. *)
Theorem display_needs_three_dates (datestr2num : string -> result Z) :
  (forall dates data title savefig savePath t r,
     display_data datestr2num dates data title savefig savePath = (t, Return r) ->
     (3 <= length dates)%nat /\ exists y : R, adaptiveYLimit data = Ok (Fin y)) /\
  (forall datesBuilt dataBuilt RTrue OTrue displayO savefig savePath t r,
     display_dataBuilt datestr2num datesBuilt dataBuilt RTrue OTrue displayO
       savefig savePath = (t, Return r) ->
     (3 <= length datesBuilt)%nat /\ exists y : R, adaptiveYLimit dataBuilt = Ok (Fin y)).
Proof.
  split.
  - intros dates data title savefig savePath t r H. unfold display_data in H.
    repeat inv_run H.
    match goal with
    | Hl : adaptiveDaysLocator _ = Ok _, Hp : mapM datestr2num dates = Ok _ |- _ =>
        pose proof (locator_three_dates _ _ Hl) as Hne;
        pose proof (mapM_length _ _ _ Hp) as Hlen
    end.
    split; [lia|].
    match goal with
    | Hy : adaptiveYLimit data = Ok ?top, Hf : is_finite ?top = true |- _ =>
        destruct top as [y| | |]; try discriminate Hf; now exists y
    end.
  - intros datesBuilt dataBuilt RTrue OTrue displayO savefig savePath t r H.
    unfold display_dataBuilt in H.
    repeat inv_run H.
    match goal with
    | Hl : adaptiveDaysLocator _ = Ok _, Hp : mapM datestr2num datesBuilt = Ok _ |- _ =>
        pose proof (locator_three_dates _ _ Hl) as Hne;
        pose proof (mapM_length _ _ _ Hp) as Hlen
    end.
    split; [lia|].
    match goal with
    | Hy : adaptiveYLimit dataBuilt = Ok ?top, Hf : is_finite ?top = true |- _ =>
        destruct top as [y| | |]; try discriminate Hf; now exists y
    end.
Qed.

Lemma display_needs_three_dates_witness :
  (3 <= length ["2020-01-30"; "2020-01-31"; "2020-02-01"]%string)%nat /\
  exists y : R, adaptiveYLimit (series [5; 42; 97]%R) = Ok (Fin y).
Proof.
  apply (proj1 (display_needs_three_dates IsoDates.iso_datestr2num)
           ["2020-01-30"; "2020-01-31"; "2020-02-01"]%string
           (series [5; 42; 97]%R) "cases"%string false None
           (fst (display_data IsoDates.iso_datestr2num
                   ["2020-01-30"; "2020-01-31"; "2020-02-01"]%string
                   (series [5; 42; 97]%R) "cases"%string false None))
           (Ax 0, [18291; 18292; 18293]%Z)).
  unfold display_data. rewrite YLimitProps.adaptiveYLimit_example. reflexivity.
Defined.

End DisplayProps.
